(** * MCPF examples: delegated two-agent workflows

    A shallow embedding of the two executable examples of the repository,

    - [banking/fraud-detection/index.ts] ([detectFraud] and its helpers
      [calculateRiskScore] and [generateReasoning]), and
    - [customer-service/escalation/index.js] ([handleCustomerQuery] and its
      stub responders),

    together with the properties that the specification states about them.

    JavaScript numbers are IEEE 754 binary64 values.  They are modelled by
    [spec_float] at precision 53 and maximal exponent 1024, so that sums
    such as [0.3 + 0.2] are the rounded sums the program computes. *)

From Stdlib Require Import ZArith List Bool Lia.
From Stdlib Require Import Floats.SpecFloat Floats.PrimFloat Floats.FloatOps.
From stdpp Require Import base option list strings pretty gmap.

Set Warnings "-inexact-float".
Local Open Scope string_scope.
Local Open Scope list_scope.

(** ** JavaScript values *)

Module JS.

(** *** Numbers *)

Abbreviation number := spec_float (only parsing).

Definition prec : Z := 53.
Definition emax : Z := 1024.

(** A numeric literal of the source denotes the nearest binary64 value. *)
Definition lit (x : PrimFloat.float) : number := Prim2SF x.

Definition NaN : number := S754_nan.

Definition add (x y : number) : number := SFadd prec emax x y.
Definition div (x y : number) : number := SFdiv prec emax x y.

(** [x < y], [x > y], [x <= y] and [x >= y] on numbers: every comparison
    with [NaN] is false. *)
Definition lt (x y : number) : bool := SFltb x y.
Definition gt (x y : number) : bool := SFltb y x.
Definition le (x y : number) : bool := SFleb x y.
Definition ge (x y : number) : bool := SFleb y x.

(** An integer as a number (exact up to 2^53). *)
Definition of_Z (n : Z) : number := binary_normalize prec emax n 0 false.

(** [Math.min(x, y)]: [NaN] if either argument is [NaN]; [-0] is below
    [+0]. *)
Definition Math_min (x y : number) : number :=
  match x, y with
  | S754_nan, _ | _, S754_nan => S754_nan
  | S754_zero sx, S754_zero sy => S754_zero (sx || sy)
  | _, _ => if SFltb y x then y else x
  end.

(** [Math.max(x, y)], used by the reference definition of the clamp. *)
Definition Math_max (x y : number) : number :=
  match x, y with
  | S754_nan, _ | _, S754_nan => S754_nan
  | S754_zero sx, S754_zero sy => S754_zero (sx && sy)
  | _, _ => if SFltb x y then y else x
  end.

(** *** Primitive values

    The values that the fields of an untyped object ([Record<string, any>],
    or a plain JS object) are taken from.  Objects, whose conversion to a
    primitive may run arbitrary code, are left out. *)
Inductive value : Type :=
| Undefined
| Null
| Bool (b : bool)
| Number (x : number)
| String (s : string).

(** [ToBoolean]. *)
Definition ToBoolean (v : value) : bool :=
  match v with
  | Undefined | Null => false
  | Bool b => b
  | Number (S754_zero _) | Number S754_nan => false
  | Number _ => true
  | String s => negb (String.eqb s "")
  end.

(** The value of a non-empty string as a numeric literal
    ([StringToNumber] of ECMA-262) is a parameter of the embedding. *)
Class NumericStrings := StringNumericLiteral : string → number.

(** [ToNumber]. *)
Definition ToNumber `{NumericStrings} (v : value) : number :=
  match v with
  | Undefined => NaN
  | Null => lit 0
  | Bool true => lit 1
  | Bool false => lit 0
  | Number x => x
  | String s => if String.eqb s "" then lit 0 else StringNumericLiteral s
  end.

(** [a || b]. *)
Definition or (a b : value) : value := if ToBoolean a then a else b.

(** [v > x] for a number [x]: the operands are not both strings, so both
    are converted with [ToNumber]. *)
Definition gt_number `{NumericStrings} (v : value) (x : number) : bool :=
  gt (ToNumber v) x.

(** [v === s] for a string [s]. *)
Definition strict_eq_string (v : value) (s : string) : bool :=
  match v with
  | String t => String.eqb t s
  | _ => false
  end.

(** Property access [o.k] on an object used as a dictionary. *)
Definition get (o : gmap string value) (k : string) : value :=
  default Undefined (o !! k).

(** *** Exceptions *)

Inductive exn : Type :=
| Error (message : string)
| TypeError (message : string).

Definition message (e : exn) : string :=
  match e with Error m | TypeError m => m end.

End JS.

(** ** The MCPF client: collaborators and asynchronous calls

    The client library [mcpf-typescript] is not part of the repository.  Its
    three services are taken as functions from the arguments of a call to
    the outcome of the promise that the call returns.  An asynchronous
    function is modelled by the outcome of its promise together with the
    calls it has made to the services, in the order of the [await]s.
    Console output is not modelled. *)

Module MCPF.

Record AgentIdentity : Type := {
  name : string;
  did : string;
  endpoint : string
}.

Record DelegationPolicy : Type := {
  id : string;
  constraints : gmap string JS.value
}.

Record DelegationDecision : Type := {
  allowed : bool;
  reason : option string;
  policy : option DelegationPolicy
}.

(** How a promise settles. *)
Inductive outcome (A : Type) : Type :=
| Fulfilled (a : A)
| Rejected (e : JS.exn).

Arguments Fulfilled {A} a.
Arguments Rejected {A} e.

(** The services of [new MCPF({...})]: [mcpf.ans.resolve({name})],
    [mcpf.did.verifyAgent(did)] and
    [mcpf.a2a.checkDelegation({fromDid, toDid, action})]. *)
Record client : Type := {
  ans_resolve : string → outcome AgentIdentity;
  did_verifyAgent : string → outcome bool;
  a2a_checkDelegation : string → string → string → outcome DelegationDecision
}.

(** A call to a service, as recorded in the trace of a run. *)
Inductive call : Type :=
| Resolve (name : string)
| VerifyAgent (did : string)
| CheckDelegation (fromDid toDid action : string).

Definition is_CheckDelegation (c : call) : bool :=
  match c with CheckDelegation _ _ _ => true | _ => false end.

Definition is_VerifyAgent (c : call) : bool :=
  match c with VerifyAgent _ => true | _ => false end.

(** An [async] computation: the outcome and the calls made. *)
Definition async (A : Type) : Type := outcome A * list call.

Definition result {A} (m : async A) : outcome A := fst m.
Definition trace {A} (m : async A) : list call := snd m.

#[global] Instance async_ret : MRet async := λ A a, (Fulfilled a, []).

(** [await m] followed by [f]: a rejection of [m] is thrown and ends the
    function. *)
#[global] Instance async_bind : MBind async := λ A B f m,
  match m with
  | (Fulfilled a, t) => let '(o, t') := f a in (o, t ++ t')
  | (Rejected e, t) => (Rejected e, t)
  end.

Definition throw {A} (e : JS.exn) : async A := (Rejected e, []).

Definition await_resolve (mcpf : client) (n : string) : async AgentIdentity :=
  (ans_resolve mcpf n, [Resolve n]).

Definition await_verifyAgent (mcpf : client) (d : string) : async bool :=
  (did_verifyAgent mcpf d, [VerifyAgent d]).

Definition await_checkDelegation (mcpf : client) (fromDid toDid action : string)
  : async DelegationDecision :=
  (a2a_checkDelegation mcpf fromDid toDid action,
   [CheckDelegation fromDid toDid action]).

(** [delegation.policy.id] (also written [delegation.policy!.id]): reading a
    property of [undefined] throws a [TypeError]. *)
Definition policy_id (d : DelegationDecision) : async string :=
  match policy d with
  | Some p => mret (id p)
  | None => throw (JS.TypeError "Cannot read properties of undefined (reading 'id')")
  end.

(** [`${delegation.reason}`]: an absent reason prints as [undefined]. *)
Definition reason_text (d : DelegationDecision) : string :=
  default "undefined" (reason d).

End MCPF.

(** ** Banking: the fraud-detection chain ([banking/fraud-detection/index.ts]) *)

Module FraudDetection.

Import JS (NumericStrings).

Record Transaction : Type := {
  tx_id : string;
  tx_amount : JS.number;
  tx_currency : string;
  tx_from : string;
  tx_to : string;
  tx_timestamp : string;
  tx_metadata : gmap string JS.value
}.

Inductive Decision : Type := ALLOW | BLOCK | REVIEW.

Record FraudDetectionResult : Type := {
  transactionId : string;
  fraudDetectorDid : string;
  riskAnalyzerDid : string;
  policyId : string;
  riskScore : JS.number;
  decision : Decision;
  reasoning : list string;
  timestamp : string
}.

Definition calculateRiskScore `{NumericStrings} (tx : Transaction) : JS.number :=
  let score := JS.lit 0 in
  (* Amount-based risk *)
  let score := if JS.gt (tx_amount tx) (JS.lit 10000)
               then JS.add score (JS.lit 0.3) else score in
  let score := if JS.gt (tx_amount tx) (JS.lit 50000)
               then JS.add score (JS.lit 0.2) else score in
  (* Velocity check *)
  let recentTxCount :=
    JS.or (JS.get (tx_metadata tx) "recentTxCount") (JS.Number (JS.lit 0)) in
  let score := if JS.gt_number recentTxCount (JS.lit 5)
               then JS.add score (JS.lit 0.2) else score in
  (* Geographic risk *)
  let isHighRiskCountry :=
    JS.strict_eq_string (JS.get (tx_metadata tx) "toCountry") "XX" in
  let score := if isHighRiskCountry
               then JS.add score (JS.lit 0.3) else score in
  JS.Math_min score (JS.lit 1.0).

Definition generateReasoning `{NumericStrings} (tx : Transaction) (score : JS.number)
  : list string :=
  let reasons := [] in
  let reasons := if JS.gt (tx_amount tx) (JS.lit 10000)
                 then reasons ++ ["High transaction amount"] else reasons in
  let reasons := if JS.gt_number (JS.get (tx_metadata tx) "recentTxCount") (JS.lit 5)
                 then reasons ++ ["High transaction velocity"] else reasons in
  let reasons := if JS.strict_eq_string (JS.get (tx_metadata tx) "toCountry") "XX"
                 then reasons ++ ["High-risk destination country"] else reasons in
  let reasons := if JS.lt score (JS.lit 0.3)
                 then reasons ++ ["Normal transaction pattern"] else reasons in
  reasons.

(** The conditional of [detectFraud] that maps the score to the decision. *)
Definition decide (riskScore : JS.number) : Decision :=
  if JS.gt riskScore (JS.lit 0.8) then BLOCK
  else if JS.gt riskScore (JS.lit 0.5) then REVIEW
  else ALLOW.

(** [now] is what [new Date().toISOString()] gives when the result is built. *)
Definition detectFraud `{NumericStrings} (mcpf : MCPF.client) (now : string)
  (transaction : Transaction) : MCPF.async FraudDetectionResult :=
  (* Step 1: resolve agents via ANS *)
  fraudDetector ← MCPF.await_resolve mcpf "fraud-detector.risk.bank.example.agent";
  riskAnalyzer ← MCPF.await_resolve mcpf "risk-analyzer.analytics.bank.example.agent";
  (* Step 2: verify agent credentials *)
  detectorValid ← MCPF.await_verifyAgent mcpf (MCPF.did fraudDetector);
  analyzerValid ← MCPF.await_verifyAgent mcpf (MCPF.did riskAnalyzer);
  if negb detectorValid || negb analyzerValid
  then MCPF.throw (JS.Error "Agent credential verification failed")
  else
  (* Step 3: check delegation permission *)
  delegation ← MCPF.await_checkDelegation mcpf
                 (MCPF.did fraudDetector) (MCPF.did riskAnalyzer) "analyze-transaction";
  if negb (MCPF.allowed delegation)
  then MCPF.throw (JS.Error ("Delegation denied: " +:+ MCPF.reason_text delegation))
  else
  (* Step 4: perform risk analysis *)
  let riskScore := calculateRiskScore transaction in
  let reasoning := generateReasoning transaction riskScore in
  let decision := decide riskScore in
  policyId ← MCPF.policy_id delegation;
  mret {| transactionId := tx_id transaction;
          fraudDetectorDid := MCPF.did fraudDetector;
          riskAnalyzerDid := MCPF.did riskAnalyzer;
          policyId := policyId;
          riskScore := riskScore;
          decision := decision;
          reasoning := reasoning;
          timestamp := now |}.

End FraudDetection.

(** ** Customer service: escalation ([customer-service/escalation/index.js]) *)

Module Escalation.

Record Query : Type := {
  query_customerId : string;
  query_message : string;
  query_severity : JS.value
}.

Record Response : Type := {
  message : string;
  confidence : JS.number
}.

(** The object that [handleCustomerQuery] returns; [policyId] is present
    in the escalated result only. *)
Record WorkflowResult : Type := {
  status : string;
  response : Response;
  policyId : option string
}.

Definition simulateL1Response (query : Query) : Response :=
  {| message := "I can help with that!";
     confidence := if JS.strict_eq_string (query_severity query) "high"
                   then JS.lit 0.5 else JS.lit 0.9 |}.

Definition simulateSupervisorResponse (query : Query) : Response :=
  {| message := "Supervisor: I'll handle this personally.";
     confidence := JS.lit 0.95 |}.

(** The condition of the [if] that guards the escalation. *)
Definition needsEscalation (l1Response : Response) (query : Query) : bool :=
  JS.lt (confidence l1Response) (JS.lit 0.8)
  || JS.strict_eq_string (query_severity query) "high".

(** [handleCustomerQuery], for any first-level responder [l1].  The body of
    the [if] either returns the escalated result or falls through to the
    final [return]. *)
Definition handleCustomerQueryWith (l1 : Query → Response) (mcpf : MCPF.client)
  (query : Query) : MCPF.async WorkflowResult :=
  (* Resolve agents *)
  chatbotL1 ← MCPF.await_resolve mcpf "chatbot-l1.support.company.example.agent";
  supervisorAI ← MCPF.await_resolve mcpf "supervisor-ai.management.company.example.agent";
  (* Attempt L1 resolution *)
  let l1Response := l1 query in
  (* Check if escalation needed *)
  returned ←
    (if needsEscalation l1Response query then
       delegation ← MCPF.await_checkDelegation mcpf
                      (MCPF.did chatbotL1) (MCPF.did supervisorAI) "escalate";
       if MCPF.allowed delegation then
         let supervisorResponse := simulateSupervisorResponse query in
         policyId ← MCPF.policy_id delegation;
         mret (Some {| status := "escalated";
                       response := supervisorResponse;
                       policyId := Some policyId |})
       else mret None
     else mret None);
  match returned with
  | Some r => mret r
  | None => mret {| status := "resolved_l1"; response := l1Response; policyId := None |}
  end.

(** The function of the source: the responder is [simulateL1Response]. *)
Definition handleCustomerQuery : MCPF.client → Query → MCPF.async WorkflowResult :=
  handleCustomerQueryWith simulateL1Response.

End Escalation.

(** ** Reference definitions, following the words of the specification *)

Module Reference.

Import JS (NumericStrings).
Import FraudDetection (Transaction, tx_amount, tx_metadata).

(** "Clamp final score to the closed interval [0.0, 1.0]". *)
Definition clamp01 (x : JS.number) : JS.number :=
  JS.Math_max (JS.lit 0.0) (JS.Math_min x (JS.lit 1.0)).

Definition add_if (b : bool) (x score : JS.number) : JS.number :=
  if b then JS.add score x else score.

(** "Start at score 0.0.  Add 0.3 if transaction amount > 10,000.  Add an
    additional 0.2 if amount > 50,000.  Add 0.2 if a supplied recent
    transaction count metadata field exceeds 5.  Add 0.3 if a supplied
    destination-country metadata field equals a designated high-risk
    sentinel value.  Clamp final score to the closed interval [0.0, 1.0]." *)
Definition fraud_score `{NumericStrings} (tx : Transaction) : JS.number :=
  let amount := tx_amount tx in
  let count := JS.get (tx_metadata tx) "recentTxCount" in
  let country := JS.get (tx_metadata tx) "toCountry" in
  clamp01
    (add_if (JS.strict_eq_string country "XX") (JS.lit 0.3)
    (add_if (JS.gt_number count (JS.lit 5)) (JS.lit 0.2)
    (add_if (JS.gt amount (JS.lit 50000)) (JS.lit 0.2)
    (add_if (JS.gt amount (JS.lit 10000)) (JS.lit 0.3)
    (JS.lit 0.0))))).

(** The four conditions that [calculateRiskScore] and [generateReasoning]
    test. *)
Definition high_amount (tx : Transaction) : bool :=
  JS.gt (tx_amount tx) (JS.lit 10000).
Definition very_high_amount (tx : Transaction) : bool :=
  JS.gt (tx_amount tx) (JS.lit 50000).
Definition high_velocity `{NumericStrings} (tx : Transaction) : bool :=
  JS.gt_number (JS.get (tx_metadata tx) "recentTxCount") (JS.lit 5).
Definition high_risk_country (tx : Transaction) : bool :=
  JS.strict_eq_string (JS.get (tx_metadata tx) "toCountry") "XX".

(** The sum of the four increments, in tenths. *)
Definition tenths (amount_gt_10000 amount_gt_50000 velocity country : bool) : Z :=
  (if amount_gt_10000 then 3 else 0) + (if amount_gt_50000 then 2 else 0)
  + (if velocity then 2 else 0) + (if country then 3 else 0).

(** The number that the decimal literal [n/10] denotes. *)
Definition of_tenths (n : Z) : JS.number := JS.div (JS.of_Z n) (JS.of_Z 10).

(** "the returned error's message must contain the exact denial reason":
    [r] occurs in [s]. *)
Definition contains (s r : string) : Prop :=
  ∃ before after : string, s = before +:+ r +:+ after.

(** "identical deterministic collaborator stubs": two clients that answer
    every call alike. *)
Definition same_responses (m1 m2 : MCPF.client) : Prop :=
  (∀ n, MCPF.ans_resolve m1 n = MCPF.ans_resolve m2 n)
  ∧ (∀ d, MCPF.did_verifyAgent m1 d = MCPF.did_verifyAgent m2 d)
  ∧ (∀ f t a, MCPF.a2a_checkDelegation m1 f t a = MCPF.a2a_checkDelegation m2 f t a).

(** "identical WorkflowResult fields except the timestamp". *)
Definition same_except_timestamp (r1 r2 : FraudDetection.FraudDetectionResult) : Prop :=
  FraudDetection.transactionId r1 = FraudDetection.transactionId r2
  ∧ FraudDetection.fraudDetectorDid r1 = FraudDetection.fraudDetectorDid r2
  ∧ FraudDetection.riskAnalyzerDid r1 = FraudDetection.riskAnalyzerDid r2
  ∧ FraudDetection.policyId r1 = FraudDetection.policyId r2
  ∧ FraudDetection.riskScore r1 = FraudDetection.riskScore r2
  ∧ FraudDetection.decision r1 = FraudDetection.decision r2
  ∧ FraudDetection.reasoning r1 = FraudDetection.reasoning r2.

End Reference.

(** ** Sample data *)

Module Sample.

Import FraudDetection.

Definition no_numeric_strings : JS.NumericStrings := λ _, JS.NaN.

Definition detector : MCPF.AgentIdentity :=
  {| MCPF.name := "fraud-detector.risk.bank.example.agent";
     MCPF.did := "did:web:bank.example:fraud-detector";
     MCPF.endpoint := "https://bank.example/fraud-detector" |}.

Definition analyzer : MCPF.AgentIdentity :=
  {| MCPF.name := "risk-analyzer.analytics.bank.example.agent";
     MCPF.did := "did:web:analytics.bank.example:risk-analyzer";
     MCPF.endpoint := "https://analytics.bank.example/risk-analyzer" |}.

Definition chatbot : MCPF.AgentIdentity :=
  {| MCPF.name := "chatbot-l1.support.company.example.agent";
     MCPF.did := "did:web:company.example:chatbot-l1";
     MCPF.endpoint := "https://company.example/chatbot-l1" |}.

Definition supervisor : MCPF.AgentIdentity :=
  {| MCPF.name := "supervisor-ai.management.company.example.agent";
     MCPF.did := "did:web:company.example:supervisor-ai";
     MCPF.endpoint := "https://company.example/supervisor-ai" |}.

Definition resolve (n : string) : MCPF.outcome MCPF.AgentIdentity :=
  if String.eqb n (MCPF.name detector) then MCPF.Fulfilled detector
  else if String.eqb n (MCPF.name analyzer) then MCPF.Fulfilled analyzer
  else if String.eqb n (MCPF.name chatbot) then MCPF.Fulfilled chatbot
  else if String.eqb n (MCPF.name supervisor) then MCPF.Fulfilled supervisor
  else MCPF.Rejected (JS.Error "NotFound").

Definition pol_xyz : MCPF.DelegationPolicy :=
  {| MCPF.id := "pol_xyz";
     MCPF.constraints := {[ "requiresApproval" := JS.Bool false ]} |}.

Definition allow : MCPF.DelegationDecision :=
  {| MCPF.allowed := true; MCPF.reason := None; MCPF.policy := Some pol_xyz |}.

Definition deny (r : string) : MCPF.DelegationDecision :=
  {| MCPF.allowed := false; MCPF.reason := Some r; MCPF.policy := None |}.

(** A client whose verifier answers [valid d] and whose delegation checker
    answers [decision]. *)
Definition mcpf (valid : string → bool) (decision : MCPF.DelegationDecision)
  : MCPF.client :=
  {| MCPF.ans_resolve := resolve;
     MCPF.did_verifyAgent := λ d, MCPF.Fulfilled (valid d);
     MCPF.a2a_checkDelegation := λ _ _ _, MCPF.Fulfilled decision |}.

Definition transaction (amount : PrimFloat.float) (metadata : gmap string JS.value)
  : Transaction :=
  {| tx_id := "tx_abc123";
     tx_amount := JS.lit amount;
     tx_currency := "USD";
     tx_from := "account_12345";
     tx_to := "account_67890";
     tx_timestamp := "2025-12-31T09:59:58.000Z";
     tx_metadata := metadata |}.

Definition metadata (recentTxCount : PrimFloat.float) (toCountry : string)
  : gmap string JS.value :=
  {[ "recentTxCount" := JS.Number (JS.lit recentTxCount);
     "toCountry" := JS.String toCountry ]}.

(** amount = 60,000, recent-transaction-count = 6, high-risk country. *)
Definition all_triggered : Transaction := transaction 60000 (metadata 6 "XX").

(** A small amount to a low-risk country, with six recent transactions. *)
Definition velocity_only : Transaction := transaction 100 (metadata 6 "US").

(** The boundary of the three tests: amount = 10,000 and five recent
    transactions, to a low-risk country. *)
Definition at_the_thresholds : Transaction := transaction 10000 (metadata 5 "US").

(** A verifier that rejects the credential of the risk analyzer only. *)
Definition analyzer_invalid (d : string) : bool :=
  negb (String.eqb d (MCPF.did analyzer)).

(** A first-level responder that is always 0.9 confident. *)
Definition confident_l1 (query : Escalation.Query) : Escalation.Response :=
  {| Escalation.message := "I can help with that!";
     Escalation.confidence := JS.lit 0.9 |}.

Definition query (severity : JS.value) : Escalation.Query :=
  {| Escalation.query_customerId := "cust_123";
     Escalation.query_message := "My account was charged twice";
     Escalation.query_severity := severity |}.

End Sample.

(** ** Parts and variants of the fraud-detection functions *)

Module Parts.

Import JS (NumericStrings).
Import FraudDetection.

(** The value of [score] in [calculateRiskScore] when the [return] is
    reached, before [Math.min] is applied. *)
Definition scoreBeforeClamp `{NumericStrings} (tx : Transaction) : JS.number :=
  let score := JS.lit 0 in
  let score := if JS.gt (tx_amount tx) (JS.lit 10000)
               then JS.add score (JS.lit 0.3) else score in
  let score := if JS.gt (tx_amount tx) (JS.lit 50000)
               then JS.add score (JS.lit 0.2) else score in
  let recentTxCount :=
    JS.or (JS.get (tx_metadata tx) "recentTxCount") (JS.Number (JS.lit 0)) in
  let score := if JS.gt_number recentTxCount (JS.lit 5)
               then JS.add score (JS.lit 0.2) else score in
  let isHighRiskCountry :=
    JS.strict_eq_string (JS.get (tx_metadata tx) "toCountry") "XX" in
  let score := if isHighRiskCountry
               then JS.add score (JS.lit 0.3) else score in
  score.

(** [{...tx, amount}] and [{...tx, metadata}]. *)
Definition with_amount (tx : Transaction) (amount : JS.number) : Transaction :=
  {| tx_id := tx_id tx; tx_amount := amount; tx_currency := tx_currency tx;
     tx_from := tx_from tx; tx_to := tx_to tx; tx_timestamp := tx_timestamp tx;
     tx_metadata := tx_metadata tx |}.

Definition with_metadata (tx : Transaction) (metadata : gmap string JS.value)
  : Transaction :=
  {| tx_id := tx_id tx; tx_amount := tx_amount tx; tx_currency := tx_currency tx;
     tx_from := tx_from tx; tx_to := tx_to tx; tx_timestamp := tx_timestamp tx;
     tx_metadata := metadata |}.

(** The values that [ToBoolean] sends to [false], among those a count can
    take. *)
Definition falsy (v : JS.value) : bool := negb (JS.ToBoolean v).

(** What [detectFraud] and [handleCustomerQuery] throw when an allowed
    delegation carries no policy. *)
Definition no_policy : JS.exn :=
  JS.TypeError "Cannot read properties of undefined (reading 'id')".

End Parts.

(** ** All components together ([typescript/complete-workflow.ts]) *)

Module CompleteWorkflow.

(** The answer of [mcpf.registry.search]; only the number of [items] is
    read, so that a server is given by its name alone. *)
Record SearchResult : Type := {
  items : list string
}.

(** The client of [main]: the three services of the other examples, the
    registry, and [a2a] as an optional part ([if (mcpf.a2a)]). *)
Record client : Type := {
  ans_resolve : string → MCPF.outcome MCPF.AgentIdentity;
  did_verifyAgent : string → MCPF.outcome bool;
  registry_search : string → MCPF.outcome SearchResult;
  a2a : option (string → string → string → MCPF.outcome MCPF.DelegationDecision)
}.

(** What a run does, in order: calls to the services and lines on the
    console. *)
Inductive event : Type :=
| Call (c : MCPF.call)
| Search (capability : string)
| Log (line : string)
| LogError (e : JS.exn).

Definition io (A : Type) : Type := MCPF.outcome A * list event.

#[global] Instance io_ret : MRet io := λ A a, (MCPF.Fulfilled a, []).

#[global] Instance io_bind : MBind io := λ A B f m,
  match m with
  | (MCPF.Fulfilled a, t) => let '(o, t') := f a in (o, t ++ t')
  | (MCPF.Rejected e, t) => (MCPF.Rejected e, t)
  end.

Definition result {A} (m : io A) : MCPF.outcome A := fst m.

Definition console_log (line : string) : io unit := (MCPF.Fulfilled tt, [Log line]).

Definition await_resolve (mcpf : client) (n : string) : io MCPF.AgentIdentity :=
  (ans_resolve mcpf n, [Call (MCPF.Resolve n)]).

Definition await_verifyAgent (mcpf : client) (d : string) : io bool :=
  (did_verifyAgent mcpf d, [Call (MCPF.VerifyAgent d)]).

Definition await_search (mcpf : client) (capability : string) : io SearchResult :=
  (registry_search mcpf capability, [Search capability]).

Definition await_checkDelegation
  (check : string → string → string → MCPF.outcome MCPF.DelegationDecision)
  (fromDid toDid action : string) : io MCPF.DelegationDecision :=
  (check fromDid toDid action, [Call (MCPF.CheckDelegation fromDid toDid action)]).

(** The line feed written [\n] in the source. *)
Definition LF : string :=
  String (Ascii.Ascii false true false true false false false false) "".

(** A boolean inside a template literal. *)
Definition bool_text (b : bool) : string := if b then "true" else "false".

Definition main (mcpf : client) : io unit :=
  _ ← console_log ("🚀 Complete MCPF Workflow" +:+ LF);
  (* 1. ANS - resolve agent names *)
  _ ← console_log "1️⃣  ANS: Resolving agent names...";
  agent ← await_resolve mcpf "fraud-detector.risk.bank.example.agent";
  _ ← console_log ("   ✓ " +:+ MCPF.name agent +:+ " → " +:+ MCPF.did agent);
  (* 2. DID/VC - verify credentials *)
  _ ← console_log (LF +:+ "2️⃣  DID/VC: Verifying credentials...");
  valid ← await_verifyAgent mcpf (MCPF.did agent);
  _ ← console_log ("   ✓ Credential valid: " +:+ bool_text valid);
  (* 3. Registry - find MCP servers *)
  _ ← console_log (LF +:+ "3️⃣  Registry: Searching for weather servers...");
  servers ← await_search mcpf "getCurrentWeather";
  _ ← console_log ("   ✓ Found " +:+ pretty (length (items servers)) +:+ " servers");
  (* 4. A2A - check delegation *)
  _ ← match a2a mcpf with
      | Some checkDelegation =>
        _ ← console_log (LF +:+ "4️⃣  A2A: Checking delegation permission...");
        delegation ← await_checkDelegation checkDelegation
                       (MCPF.did agent) "did:web:analyzer.example" "analyze";
        console_log ("   ✓ Delegation allowed: "
                     +:+ bool_text (MCPF.allowed delegation))
      | None => mret tt
      end;
  console_log (LF +:+ "✅ All components working!").

(** [main().catch(console.error)]: what the script does. *)
Definition script (mcpf : client) : list event :=
  match main mcpf with
  | (MCPF.Fulfilled _, events) => events
  | (MCPF.Rejected e, events) => events ++ [LogError e]
  end.

(** The calls of a run, without the console lines. *)
Definition is_call (ev : event) : bool :=
  match ev with Call _ | Search _ => true | _ => false end.

Definition calls (events : list event) : list event := List.filter is_call events.

(** The lines of a run on the standard output. *)
Definition lines (events : list event) : list string :=
  omap (λ ev, match ev with Log line => Some line | _ => None end) events.

End CompleteWorkflow.

(** ** More sample data *)

Module MoreSamples.

Definition not_found : JS.exn := JS.Error "NotFound".
Definition timed_out : JS.exn := JS.Error "ETIMEDOUT".

(** A resolver that knows [known] only. *)
Definition resolve_only (known : MCPF.AgentIdentity) (n : string)
  : MCPF.outcome MCPF.AgentIdentity :=
  if String.eqb n (MCPF.name known) then MCPF.Fulfilled known
  else MCPF.Rejected not_found.

(** A client that resolves [known] only; every credential is valid and
    every delegation allowed. *)
Definition knows_only (known : MCPF.AgentIdentity) : MCPF.client :=
  {| MCPF.ans_resolve := resolve_only known;
     MCPF.did_verifyAgent := λ _, MCPF.Fulfilled true;
     MCPF.a2a_checkDelegation := λ _ _ _, MCPF.Fulfilled Sample.allow |}.

(** A client whose verifier answers [false] for the fraud detector and
    times out for every other agent. *)
Definition verifier_down : MCPF.client :=
  {| MCPF.ans_resolve := Sample.resolve;
     MCPF.did_verifyAgent := λ d,
       if String.eqb d (MCPF.did Sample.detector) then MCPF.Fulfilled false
       else MCPF.Rejected timed_out;
     MCPF.a2a_checkDelegation := λ _ _ _, MCPF.Fulfilled Sample.allow |}.

Definition allow_without_policy : MCPF.DelegationDecision :=
  {| MCPF.allowed := true; MCPF.reason := None; MCPF.policy := None |}.

Definition deny_without_reason : MCPF.DelegationDecision :=
  {| MCPF.allowed := false; MCPF.reason := None; MCPF.policy := None |}.

(** A client of the complete workflow: the verifier answers [valid], the
    registry finds two servers, and [a2a] is as given. *)
Definition all_components (valid : bool)
  (a2a : option (string → string → string → MCPF.outcome MCPF.DelegationDecision))
  : CompleteWorkflow.client :=
  {| CompleteWorkflow.ans_resolve := Sample.resolve;
     CompleteWorkflow.did_verifyAgent := λ _, MCPF.Fulfilled valid;
     CompleteWorkflow.registry_search := λ _,
       MCPF.Fulfilled {| CompleteWorkflow.items := ["weather-a"; "weather-b"] |};
     CompleteWorkflow.a2a := a2a |}.

(** The same with a registry that is down. *)
Definition registry_down : CompleteWorkflow.client :=
  {| CompleteWorkflow.ans_resolve := Sample.resolve;
     CompleteWorkflow.did_verifyAgent := λ _, MCPF.Fulfilled true;
     CompleteWorkflow.registry_search := λ _, MCPF.Rejected timed_out;
     CompleteWorkflow.a2a := Some (λ _ _ _, MCPF.Fulfilled Sample.allow) |}.

End MoreSamples.

(** ** Numbers and strings: literals and order *)

Section Numbers.

Lemma lit_10000 : JS.lit 10000 = S754_finite false 5497558138880000 (-39).
Proof. vm_compute. reflexivity. Qed.

Lemma lit_50000 : JS.lit 50000 = S754_finite false 6871947673600000 (-37).
Proof. vm_compute. reflexivity. Qed.

(** The literals of the source are the correctly rounded decimals. *)
Lemma literals_rounded :
  JS.lit 0.3 = S754_finite false 5404319552844595 (-54)
  ∧ JS.lit 0.2 = S754_finite false 7205759403792794 (-55)
  ∧ JS.lit 0.3 = Reference.of_tenths 3
  ∧ JS.lit 0.2 = Reference.of_tenths 2
  ∧ JS.lit 0.5 = Reference.of_tenths 5
  ∧ JS.lit 0.8 = Reference.of_tenths 8
  ∧ JS.lit 1.0 = Reference.of_tenths 10
  ∧ JS.lit 0 = Reference.of_tenths 0.
Proof. repeat split; vm_compute; reflexivity. Qed.

(** Swapping the operands of a comparison swaps its result. *)
Lemma SFcompare_swap (x y : JS.number) :
  SFcompare y x = CompOpp <$> SFcompare x y.
Proof.
  destruct x as [sx|sx| |sx mx ex], y as [sy|sy| |sy my ey]; simpl;
    try reflexivity;
    try (destruct sx; reflexivity); try (destruct sy; reflexivity);
    try (destruct sx, sy; reflexivity).
  assert (Hm : Pos.compare_cont Eq my mx = CompOpp (Pos.compare_cont Eq mx my))
    by (rewrite Pos.compare_cont_antisym; reflexivity).
  destruct sx, sy; simpl; try reflexivity;
    rewrite (Z.compare_antisym ex ey), Hm;
    destruct (ex ?= ey)%Z; simpl; try reflexivity;
    destruct (Pos.compare_cont Eq mx my); reflexivity.
Qed.

(** [x <= y] excludes [x > y]. *)
Lemma le_not_gt (x y : JS.number) : JS.le x y = true → JS.gt x y = false.
Proof.
  unfold JS.le, JS.gt, SFleb, SFltb. rewrite (SFcompare_swap x y).
  destruct (SFcompare x y) as [[]|]; simpl; congruence.
Qed.

(** [x >= y] excludes [x < y]. *)
Lemma ge_not_lt (x y : JS.number) : JS.ge x y = true → JS.lt x y = false.
Proof.
  unfold JS.ge, JS.lt, SFleb, SFltb. rewrite (SFcompare_swap y x).
  destruct (SFcompare y x) as [[]|]; simpl; congruence.
Qed.

Lemma SFcompare_positive (m1 m2 : positive) (e1 e2 : Z) :
  SFcompare (S754_finite false m1 e1) (S754_finite false m2 e2)
  = Some match (e1 ?= e2)%Z with
         | Lt => Lt
         | Gt => Gt
         | Eq => Pos.compare_cont Eq m1 m2
         end.
Proof. reflexivity. Qed.

(** An amount above 50,000 is above 10,000. *)
Lemma gt_50000_gt_10000 (amount : JS.number) :
  JS.gt amount (JS.lit 50000) = true → JS.gt amount (JS.lit 10000) = true.
Proof.
  unfold JS.gt, SFltb. rewrite lit_10000, lit_50000.
  destruct amount as [s|s| |[] m e]; try (destruct s); try (cbn; congruence).
  rewrite !SFcompare_positive.
  destruct (Z.compare_spec (-37) e) as [<-|Hlt|Hgt]; try congruence.
  - reflexivity.
  - intros _. destruct (Z.compare_spec (-39) e); [lia|reflexivity|lia].
Qed.

Lemma append_empty_r (s : string) : s +:+ "" = s.
Proof. induction s as [|a s IH]; [reflexivity | rewrite <- IH at 2; reflexivity]. Qed.

End Numbers.

(** ** Fraud scoring *)

Section FraudScoring.

Import FraudDetection Reference.
Context `{JS.NumericStrings}.

(** [(v || 0) > 5] and [v > 5] agree: a falsy [v] converts to [0] or to
    [NaN], neither of which is above 5. *)
Lemma or_0_gt_5 (v : JS.value) :
  JS.gt_number (JS.or v (JS.Number (JS.lit 0))) (JS.lit 5)
  = JS.gt_number v (JS.lit 5).
Proof.
  destruct v as [| |[]|x|s]; try reflexivity.
  - destruct x; reflexivity.
  - unfold JS.or, JS.gt_number, JS.ToBoolean, JS.ToNumber.
    destruct (String.eqb s "") eqn:Hs; cbn [negb]; rewrite ?Hs; reflexivity.
Qed.

(** The score is the decimal literal of the clamped sum of the increments. *)
Lemma calculateRiskScore_tenths (tx : Transaction) :
  calculateRiskScore tx
  = Reference.of_tenths
      (Z.min 10 (Reference.tenths (high_amount tx) (very_high_amount tx)
                                  (high_velocity tx) (high_risk_country tx))).
Proof.
  unfold calculateRiskScore, high_amount, very_high_amount, high_velocity,
    high_risk_country.
  rewrite or_0_gt_5.
  destruct (JS.gt (tx_amount tx) (JS.lit 10000)),
           (JS.gt (tx_amount tx) (JS.lit 50000)),
           (JS.gt_number _ _), (JS.strict_eq_string _ _);
    vm_compute; reflexivity.
Qed.

(** The reasons are one string per condition that holds, in the order of
    the tests, followed by the note when the score is below 0.3. *)
Lemma generateReasoning_flags (tx : Transaction) (score : JS.number) :
  generateReasoning tx score
  = (if high_amount tx then ["High transaction amount"] else [])
    ++ (if high_velocity tx then ["High transaction velocity"] else [])
    ++ (if high_risk_country tx then ["High-risk destination country"] else [])
    ++ (if JS.lt score (JS.lit 0.3) then ["Normal transaction pattern"] else []).
Proof.
  unfold generateReasoning, high_amount, high_velocity, high_risk_country.
  destruct (JS.gt _ _), (JS.gt_number _ _), (JS.strict_eq_string _ _),
    (JS.lt _ _); reflexivity.
Qed.

(** A score below 0.3 is 0 or 0.2: neither the amount above 10,000 nor the
    high-risk country contributed. *)
Lemma score_below_0_3 (tx : Transaction) :
  JS.lt (calculateRiskScore tx) (JS.lit 0.3) = true →
  high_amount tx = false ∧ high_risk_country tx = false.
Proof.
  rewrite calculateRiskScore_tenths.
  destruct (high_amount tx), (very_high_amount tx), (high_velocity tx),
    (high_risk_country tx); vm_compute; intros Hlt; split; congruence.
Qed.

(** A score of at least 0.3 holds the increment of the amount above 10,000
    or that of the high-risk country. *)
Lemma score_at_least_0_3 (tx : Transaction) :
  JS.ge (calculateRiskScore tx) (JS.lit 0.3) = true →
  high_amount tx = true ∨ high_risk_country tx = true.
Proof.
  rewrite calculateRiskScore_tenths.
  pose proof (gt_50000_gt_10000 (tx_amount tx)) as Hamount.
  fold (high_amount tx) (very_high_amount tx) in Hamount.
  destruct (high_amount tx), (very_high_amount tx), (high_velocity tx),
    (high_risk_country tx); try discriminate (Hamount eq_refl);
    vm_compute; intros Hge; auto; discriminate.
Qed.

(** The score is a number: it is below 0.3 or at least 0.3. *)
Lemma score_below_or_not (tx : Transaction) :
  JS.lt (calculateRiskScore tx) (JS.lit 0.3)
  = negb (JS.ge (calculateRiskScore tx) (JS.lit 0.3)).
Proof.
  rewrite calculateRiskScore_tenths.
  destruct (high_amount tx), (very_high_amount tx), (high_velocity tx),
    (high_risk_country tx); vm_compute; reflexivity.
Qed.

(** C3. The score of every transaction is the reference score of the
    specification: 0.0, plus 0.3 for an amount above 10,000, plus 0.2 for
    an amount above 50,000, plus 0.2 for a recent-transaction count above
    5, plus 0.3 for the high-risk country, clamped to [0.0, 1.0]; it is
    also the decimal literal of that sum computed exactly.  For an amount
    of at most 10,000, a count of at most 5 and another country, it is
    0.0. *)
Theorem calculateRiskScore_reference (tx : Transaction) :
  calculateRiskScore tx = Reference.fraud_score tx
  ∧ calculateRiskScore tx
    = Reference.of_tenths
        (Z.min 10 (Reference.tenths (high_amount tx) (very_high_amount tx)
                                    (high_velocity tx) (high_risk_country tx)))
  ∧ (JS.le (tx_amount tx) (JS.lit 10000) = true →
     JS.le (JS.ToNumber (JS.get (tx_metadata tx) "recentTxCount")) (JS.lit 5) = true →
     JS.strict_eq_string (JS.get (tx_metadata tx) "toCountry") "XX" = false →
     calculateRiskScore tx = JS.lit 0.0).
Proof.
  split; [|split].
  - unfold calculateRiskScore, Reference.fraud_score, Reference.add_if.
    rewrite or_0_gt_5.
    destruct (JS.gt (tx_amount tx) (JS.lit 10000)),
             (JS.gt (tx_amount tx) (JS.lit 50000)),
             (JS.gt_number _ _), (JS.strict_eq_string _ _);
      vm_compute; reflexivity.
  - apply calculateRiskScore_tenths.
  - intros Hamount Hcount Hcountry.
    assert (H10 : high_amount tx = false) by (apply le_not_gt, Hamount).
    assert (H50 : very_high_amount tx = false).
    { destruct (very_high_amount tx) eqn:E; [|reflexivity].
      apply gt_50000_gt_10000 in E. unfold high_amount in H10. congruence. }
    assert (Hv : high_velocity tx = false) by (apply le_not_gt, Hcount).
    rewrite calculateRiskScore_tenths, H10, H50, Hv.
    unfold high_risk_country. rewrite Hcountry.
    vm_compute. reflexivity.
Qed.

(** C2, as amended.  When the score is below 0.3 the reasons end with the
    "normal pattern" note and hold neither the amount reason nor the
    country reason; the velocity reason precedes the note when the count
    exceeds 5.  For amount = 60,000, count = 6 and the high-risk country
    the reasons are exactly the three condition strings. *)
Theorem reasoning_below_0_3 :
  (∀ tx : Transaction,
     JS.lt (calculateRiskScore tx) (JS.lit 0.3) = true →
     generateReasoning tx (calculateRiskScore tx)
     = (if high_velocity tx then ["High transaction velocity"] else [])
       ++ ["Normal transaction pattern"])
  ∧ generateReasoning Sample.all_triggered (calculateRiskScore Sample.all_triggered)
    = ["High transaction amount"; "High transaction velocity";
       "High-risk destination country"].
Proof.
  split.
  - intros tx Hlt. rewrite generateReasoning_flags, Hlt.
    destruct (score_below_0_3 tx Hlt) as [-> ->]. reflexivity.
  - vm_compute. reflexivity.
Qed.

End FraudScoring.

(** ** The fraud-detection workflow *)

Section FraudWorkflow.

Import FraudDetection Reference.
Context `{JS.NumericStrings}.

Arguments calculateRiskScore : simpl never.
Arguments generateReasoning : simpl never.
Arguments decide : simpl never.

(** The runs of [detectFraud], by the answers of the services. *)
Lemma detectFraud_cases (mcpf : MCPF.client) (now : string) (tx : Transaction) :
  let detector := "fraud-detector.risk.bank.example.agent" in
  let analyzer := "risk-analyzer.analytics.bank.example.agent" in
  detectFraud mcpf now tx =
  match MCPF.ans_resolve mcpf detector with
  | MCPF.Rejected e => (MCPF.Rejected e, [MCPF.Resolve detector])
  | MCPF.Fulfilled src =>
    match MCPF.ans_resolve mcpf analyzer with
    | MCPF.Rejected e => (MCPF.Rejected e, [MCPF.Resolve detector; MCPF.Resolve analyzer])
    | MCPF.Fulfilled tgt =>
      let resolved := [MCPF.Resolve detector; MCPF.Resolve analyzer] in
      let verify1 := MCPF.VerifyAgent (MCPF.did src) in
      let verify2 := MCPF.VerifyAgent (MCPF.did tgt) in
      match MCPF.did_verifyAgent mcpf (MCPF.did src) with
      | MCPF.Rejected e => (MCPF.Rejected e, resolved ++ [verify1])
      | MCPF.Fulfilled v1 =>
        match MCPF.did_verifyAgent mcpf (MCPF.did tgt) with
        | MCPF.Rejected e => (MCPF.Rejected e, resolved ++ [verify1; verify2])
        | MCPF.Fulfilled v2 =>
          if negb v1 || negb v2
          then (MCPF.Rejected (JS.Error "Agent credential verification failed"),
                resolved ++ [verify1; verify2])
          else
            let check := MCPF.CheckDelegation (MCPF.did src) (MCPF.did tgt)
                           "analyze-transaction" in
            let calls := resolved ++ [verify1; verify2; check] in
            match MCPF.a2a_checkDelegation mcpf (MCPF.did src) (MCPF.did tgt)
                    "analyze-transaction" with
            | MCPF.Rejected e => (MCPF.Rejected e, calls)
            | MCPF.Fulfilled d =>
              if negb (MCPF.allowed d)
              then (MCPF.Rejected
                      (JS.Error ("Delegation denied: " +:+ MCPF.reason_text d)),
                    calls)
              else
                match MCPF.policy d with
                | None =>
                  (MCPF.Rejected
                     (JS.TypeError "Cannot read properties of undefined (reading 'id')"),
                   calls)
                | Some p =>
                  (MCPF.Fulfilled
                     {| transactionId := tx_id tx;
                        fraudDetectorDid := MCPF.did src;
                        riskAnalyzerDid := MCPF.did tgt;
                        policyId := MCPF.id p;
                        riskScore := calculateRiskScore tx;
                        decision := decide (calculateRiskScore tx);
                        reasoning := generateReasoning tx (calculateRiskScore tx);
                        timestamp := now |},
                   calls)
                end
            end
        end
      end
    end
  end.
Proof.
  intros detector analyzer. unfold detectFraud.
  unfold MCPF.await_resolve, MCPF.await_verifyAgent, MCPF.await_checkDelegation,
    MCPF.policy_id, MCPF.throw.
  fold detector analyzer.
  destruct (MCPF.ans_resolve mcpf detector) as [src|e]; [simpl|reflexivity].
  destruct (MCPF.ans_resolve mcpf analyzer) as [tgt|e]; [simpl|reflexivity].
  destruct (MCPF.did_verifyAgent mcpf (MCPF.did src)) as [v1|e]; [simpl|reflexivity].
  destruct (MCPF.did_verifyAgent mcpf (MCPF.did tgt)) as [v2|e]; [simpl|reflexivity].
  destruct v1, v2; try reflexivity. simpl.
  destruct (MCPF.a2a_checkDelegation mcpf _ _ _) as [d|e]; [simpl|reflexivity].
  destruct d as [[] r [p|]]; reflexivity.
Qed.

(** The fields of a returned result. *)
Lemma detectFraud_fulfilled (mcpf : MCPF.client) (now : string) (tx : Transaction)
  (r : FraudDetectionResult) :
  MCPF.result (detectFraud mcpf now tx) = MCPF.Fulfilled r →
  riskScore r = calculateRiskScore tx
  ∧ reasoning r = generateReasoning tx (calculateRiskScore tx)
  ∧ decision r = decide (calculateRiskScore tx)
  ∧ transactionId r = tx_id tx
  ∧ timestamp r = now.
Proof.
  rewrite detectFraud_cases. cbv zeta.
  destruct (MCPF.ans_resolve mcpf "fraud-detector.risk.bank.example.agent")
    as [src|e]; [|discriminate].
  destruct (MCPF.ans_resolve mcpf "risk-analyzer.analytics.bank.example.agent")
    as [tgt|e]; [|discriminate].
  destruct (MCPF.did_verifyAgent mcpf (MCPF.did src)) as [v1|e]; [|discriminate].
  destruct (MCPF.did_verifyAgent mcpf (MCPF.did tgt)) as [v2|e]; [|discriminate].
  destruct (negb v1 || negb v2); [discriminate|].
  destruct (MCPF.a2a_checkDelegation mcpf _ _ _) as [d|e]; [|discriminate].
  destruct (negb (MCPF.allowed d)); [discriminate|].
  destruct (MCPF.policy d); [|discriminate].
  cbn. intros [= <-]. cbn. repeat split.
Qed.

(** C10. The reasons that a run of the workflow returns are those of the
    score of the transaction, and they are not empty: a score of at
    least 0.3 comes with one of the three condition strings (an amount
    above 50,000 comes with the amount reason), a score below 0.3 comes
    with the note, and one of the two cases applies. *)
Theorem reasoning_nonempty (tx : Transaction) :
  let score := calculateRiskScore tx in
  let reasons := generateReasoning tx score in
  (∀ mcpf now r, MCPF.result (detectFraud mcpf now tx) = MCPF.Fulfilled r →
                 riskScore r = score ∧ reasoning r = reasons)
  ∧ reasons ≠ []
  ∧ (JS.ge score (JS.lit 0.3) = true →
     "High transaction amount" ∈ reasons
     ∨ "High transaction velocity" ∈ reasons
     ∨ "High-risk destination country" ∈ reasons)
  ∧ (JS.gt (tx_amount tx) (JS.lit 50000) = true →
     "High transaction amount" ∈ reasons)
  ∧ (JS.lt score (JS.lit 0.3) = true → "Normal transaction pattern" ∈ reasons)
  ∧ (JS.ge score (JS.lit 0.3) = true ∨ JS.lt score (JS.lit 0.3) = true).
Proof.
  intros score reasons.
  split; [intros mcpf now r Hr; split; apply (detectFraud_fulfilled _ _ _ _ Hr)|].
  subst reasons. rewrite generateReasoning_flags.
  pose proof (score_below_or_not tx) as Hcases.
  pose proof (score_at_least_0_3 tx) as Habove.
  pose proof (gt_50000_gt_10000 (tx_amount tx)) as Hamount.
  fold (high_amount tx) in Hamount. fold score in Hcases, Habove.
  split; [|split; [|split; [|split]]].
  - destruct (JS.ge score (JS.lit 0.3)).
    + destruct (Habove eq_refl) as [-> | ->]; [discriminate|].
      destruct (high_amount tx), (high_velocity tx); discriminate.
    + rewrite Hcases.
      destruct (high_amount tx), (high_velocity tx), (high_risk_country tx);
        discriminate.
  - intros Hge. destruct (Habove Hge) as [-> | ->].
    + left. apply list_elem_of_here.
    + right. right. rewrite !elem_of_app. right. right. left.
      apply list_elem_of_here.
  - intros Hgt. rewrite (Hamount Hgt). apply list_elem_of_here.
  - intros ->. rewrite !elem_of_app. right. right. right. apply list_elem_of_here.
  - rewrite Hcases. destruct (JS.ge score (JS.lit 0.3)); auto.
Qed.

(** The decision as a function of the two comparisons. *)
Lemma decide_mapping (s : JS.number) :
  (decide s = BLOCK ↔ JS.gt s (JS.lit 0.8) = true)
  ∧ (decide s = REVIEW ↔ JS.gt s (JS.lit 0.5) = true ∧ JS.gt s (JS.lit 0.8) = false)
  ∧ (decide s = ALLOW ↔ JS.gt s (JS.lit 0.5) = false ∧ JS.gt s (JS.lit 0.8) = false).
Proof.
  unfold decide.
  destruct (JS.gt s (JS.lit 0.8)), (JS.gt s (JS.lit 0.5));
    repeat split; try congruence; intros []; congruence.
Qed.

(** C4. The decision is BLOCK exactly for a score above 0.8, REVIEW exactly
    for a score above 0.5 that is not above 0.8, and ALLOW otherwise; the
    score 0.5 gives ALLOW and the score 0.8 gives REVIEW.  The decision of
    a returned result is the decision for its score. *)
Theorem decide_thresholds (s : JS.number) :
  decide s = (if JS.gt s (JS.lit 0.8) then BLOCK
              else if JS.gt s (JS.lit 0.5) then REVIEW else ALLOW)
  ∧ (decide s = BLOCK ↔ JS.gt s (JS.lit 0.8) = true)
  ∧ (decide s = REVIEW ↔ JS.gt s (JS.lit 0.5) = true ∧ JS.gt s (JS.lit 0.8) = false)
  ∧ (decide s = ALLOW ↔ JS.gt s (JS.lit 0.5) = false ∧ JS.gt s (JS.lit 0.8) = false)
  ∧ decide (JS.lit 0.5) = ALLOW
  ∧ decide (JS.lit 0.8) = REVIEW
  ∧ (∀ mcpf now tx r, MCPF.result (detectFraud mcpf now tx) = MCPF.Fulfilled r →
                      decision r = decide (riskScore r)).
Proof.
  split; [reflexivity|].
  destruct (decide_mapping s) as (Hblock & Hreview & Hallow).
  split; [exact Hblock|]. split; [exact Hreview|]. split; [exact Hallow|].
  split; [vm_compute; reflexivity|]. split; [vm_compute; reflexivity|].
  intros mcpf now tx r Hr.
  destruct (detectFraud_fulfilled _ _ _ _ Hr) as (-> & _ & -> & _).
  reflexivity.
Qed.

(** A trace given call by call holds no call to the delegation checker. *)
Ltac not_a_check E Hc Hk :=
  rewrite E in Hc; cbn in Hc;
  repeat (apply elem_of_cons in Hc as [-> | Hc]; [discriminate Hk|]);
  apply elem_of_nil in Hc; contradiction.

(** The delegation checker is called only after both verifications have
    answered [true], and then as the fifth and last call. *)
Lemma verify_before_delegate (mcpf : MCPF.client) (now : string) (tx : Transaction)
  (c : MCPF.call) :
  c ∈ MCPF.trace (detectFraud mcpf now tx) → MCPF.is_CheckDelegation c = true →
  ∃ src tgt,
    MCPF.ans_resolve mcpf "fraud-detector.risk.bank.example.agent" = MCPF.Fulfilled src
    ∧ MCPF.ans_resolve mcpf "risk-analyzer.analytics.bank.example.agent" = MCPF.Fulfilled tgt
    ∧ MCPF.did_verifyAgent mcpf (MCPF.did src) = MCPF.Fulfilled true
    ∧ MCPF.did_verifyAgent mcpf (MCPF.did tgt) = MCPF.Fulfilled true
    ∧ MCPF.trace (detectFraud mcpf now tx)
      = [MCPF.Resolve "fraud-detector.risk.bank.example.agent";
         MCPF.Resolve "risk-analyzer.analytics.bank.example.agent";
         MCPF.VerifyAgent (MCPF.did src); MCPF.VerifyAgent (MCPF.did tgt); c].
Proof.
  intros Hc Hk.
  pose proof (detectFraud_cases mcpf now tx) as E. cbv zeta in E.
  destruct (MCPF.ans_resolve mcpf "fraud-detector.risk.bank.example.agent")
    as [src|e] eqn:Hsrc; [|not_a_check E Hc Hk].
  destruct (MCPF.ans_resolve mcpf "risk-analyzer.analytics.bank.example.agent")
    as [tgt|e] eqn:Htgt; [|not_a_check E Hc Hk].
  destruct (MCPF.did_verifyAgent mcpf (MCPF.did src)) as [v1|e] eqn:Hv1;
    [|not_a_check E Hc Hk].
  destruct (MCPF.did_verifyAgent mcpf (MCPF.did tgt)) as [v2|e] eqn:Hv2;
    [|not_a_check E Hc Hk].
  destruct v1, v2; cbn [negb orb] in E; try not_a_check E Hc Hk.
  exists src, tgt. repeat split; try assumption.
  assert (Hcalls : MCPF.trace (detectFraud mcpf now tx)
                   = [MCPF.Resolve "fraud-detector.risk.bank.example.agent";
                      MCPF.Resolve "risk-analyzer.analytics.bank.example.agent";
                      MCPF.VerifyAgent (MCPF.did src); MCPF.VerifyAgent (MCPF.did tgt);
                      MCPF.CheckDelegation (MCPF.did src) (MCPF.did tgt)
                        "analyze-transaction"]).
  { rewrite E.
    destruct (MCPF.a2a_checkDelegation mcpf _ _ _) as [d|e]; [|reflexivity].
    destruct (negb (MCPF.allowed d)); [reflexivity|].
    destruct (MCPF.policy d); reflexivity. }
  rewrite Hcalls in Hc |- *.
  repeat (apply elem_of_cons in Hc as [-> | Hc]; [try discriminate Hk|]).
  - reflexivity.
  - apply elem_of_nil in Hc. contradiction.
Qed.

(** C5, as amended.  When both agents resolve and the verifier answers
    [false] for the source or for the target, the run fails after the two
    resolutions and the two verifications and the delegation checker is
    not called.  The error is "Agent credential verification failed" when
    the verification of the target is answered too; when that
    verification is rejected, the error is the one it was rejected
    with. *)
Theorem credential_gate (mcpf : MCPF.client) (now : string) (tx : Transaction)
  (src tgt : MCPF.AgentIdentity) (detectorValid : bool) :
  MCPF.ans_resolve mcpf "fraud-detector.risk.bank.example.agent" = MCPF.Fulfilled src →
  MCPF.ans_resolve mcpf "risk-analyzer.analytics.bank.example.agent" = MCPF.Fulfilled tgt →
  MCPF.did_verifyAgent mcpf (MCPF.did src) = MCPF.Fulfilled detectorValid →
  detectorValid = false ∨ MCPF.did_verifyAgent mcpf (MCPF.did tgt) = MCPF.Fulfilled false →
  (∃ e, MCPF.result (detectFraud mcpf now tx) = MCPF.Rejected e)
  ∧ MCPF.trace (detectFraud mcpf now tx)
    = [MCPF.Resolve "fraud-detector.risk.bank.example.agent";
       MCPF.Resolve "risk-analyzer.analytics.bank.example.agent";
       MCPF.VerifyAgent (MCPF.did src); MCPF.VerifyAgent (MCPF.did tgt)]
  ∧ (∀ c, c ∈ MCPF.trace (detectFraud mcpf now tx) → MCPF.is_CheckDelegation c = false)
  ∧ (∀ analyzerValid,
       MCPF.did_verifyAgent mcpf (MCPF.did tgt) = MCPF.Fulfilled analyzerValid →
       MCPF.result (detectFraud mcpf now tx)
       = MCPF.Rejected (JS.Error "Agent credential verification failed"))
  ∧ (∀ e,
       MCPF.did_verifyAgent mcpf (MCPF.did tgt) = MCPF.Rejected e →
       MCPF.result (detectFraud mcpf now tx) = MCPF.Rejected e).
Proof.
  intros Hsrc Htgt Hv1 Hinvalid.
  rewrite detectFraud_cases. cbv zeta. rewrite Hsrc, Htgt, Hv1.
  destruct (MCPF.did_verifyAgent mcpf (MCPF.did tgt)) as [analyzerValid|e0] eqn:Hv2.
  - assert (Hgate : negb detectorValid || negb analyzerValid = true).
    { destruct Hinvalid as [-> | [= ->]]; [|destruct detectorValid]; reflexivity. }
    rewrite Hgate.
    split; [eexists; reflexivity|]. split; [reflexivity|]. split; [|split].
    + intros c Hc. cbn in Hc.
      repeat (apply elem_of_cons in Hc as [-> | Hc]; [reflexivity|]).
      apply elem_of_nil in Hc. contradiction.
    + intros v _. reflexivity.
    + intros e [=].
  - split; [eexists; reflexivity|]. split; [reflexivity|]. split; [|split].
    + intros c Hc. cbn in Hc.
      repeat (apply elem_of_cons in Hc as [-> | Hc]; [reflexivity|]).
      apply elem_of_nil in Hc. contradiction.
    + intros v [=].
    + intros e [= <-]. reflexivity.
Qed.

(** C6. When both agents resolve and verify and the delegation checker
    answers [allowed = false] with the reason [r], the run is rejected
    with an error whose message is "Delegation denied: " followed by [r],
    so that [r] occurs in it unaltered. *)
Theorem delegation_denial_reason (mcpf : MCPF.client) (now : string) (tx : Transaction)
  (src tgt : MCPF.AgentIdentity) (delegation : MCPF.DelegationDecision) (r : string) :
  MCPF.ans_resolve mcpf "fraud-detector.risk.bank.example.agent" = MCPF.Fulfilled src →
  MCPF.ans_resolve mcpf "risk-analyzer.analytics.bank.example.agent" = MCPF.Fulfilled tgt →
  MCPF.did_verifyAgent mcpf (MCPF.did src) = MCPF.Fulfilled true →
  MCPF.did_verifyAgent mcpf (MCPF.did tgt) = MCPF.Fulfilled true →
  MCPF.a2a_checkDelegation mcpf (MCPF.did src) (MCPF.did tgt) "analyze-transaction"
  = MCPF.Fulfilled delegation →
  MCPF.allowed delegation = false →
  MCPF.reason delegation = Some r →
  ∃ e, MCPF.result (detectFraud mcpf now tx) = MCPF.Rejected e
       ∧ JS.message e = "Delegation denied: " +:+ r
       ∧ Reference.contains (JS.message e) r.
Proof.
  intros Hsrc Htgt Hv1 Hv2 Hcheck Hdenied Hreason.
  exists (JS.Error ("Delegation denied: " +:+ r)).
  rewrite detectFraud_cases. cbv zeta. rewrite Hsrc, Htgt, Hv1, Hv2. cbn [negb orb].
  rewrite Hcheck, Hdenied. cbn [negb].
  unfold MCPF.reason_text. rewrite Hreason.
  repeat split.
  exists "Delegation denied: ", "". cbn [JS.message].
  f_equal. symmetry. apply append_empty_r.
Qed.

(** C8. Two runs on the same transaction, against clients that answer
    every call alike and at any two times, make the same calls and settle
    alike: both are rejected with the same error, or both return results
    that agree on every field except the timestamp. *)
Theorem detectFraud_idempotent (m1 m2 : MCPF.client) (t1 t2 : string)
  (tx : Transaction) :
  Reference.same_responses m1 m2 →
  MCPF.trace (detectFraud m1 t1 tx) = MCPF.trace (detectFraud m2 t2 tx)
  ∧ match MCPF.result (detectFraud m1 t1 tx), MCPF.result (detectFraud m2 t2 tx) with
    | MCPF.Fulfilled r1, MCPF.Fulfilled r2 =>
      Reference.same_except_timestamp r1 r2 ∧ timestamp r1 = t1 ∧ timestamp r2 = t2
    | MCPF.Rejected e1, MCPF.Rejected e2 => e1 = e2
    | _, _ => False
    end.
Proof.
  intros (Hresolve & Hverify & Hcheck).
  rewrite !detectFraud_cases. cbv zeta. rewrite <- !Hresolve.
  destruct (MCPF.ans_resolve m1 "fraud-detector.risk.bank.example.agent")
    as [src|e]; [|split; reflexivity].
  destruct (MCPF.ans_resolve m1 "risk-analyzer.analytics.bank.example.agent")
    as [tgt|e]; [|split; reflexivity].
  rewrite <- !Hverify.
  destruct (MCPF.did_verifyAgent m1 (MCPF.did src)) as [v1|e]; [|split; reflexivity].
  destruct (MCPF.did_verifyAgent m1 (MCPF.did tgt)) as [v2|e]; [|split; reflexivity].
  destruct (negb v1 || negb v2); [split; reflexivity|].
  rewrite <- !Hcheck.
  destruct (MCPF.a2a_checkDelegation m1 _ _ _) as [d|e]; [|split; reflexivity].
  destruct (negb (MCPF.allowed d)); [split; reflexivity|].
  destruct (MCPF.policy d); [|split; reflexivity].
  cbn. unfold Reference.same_except_timestamp. cbn. repeat split.
Qed.

End FraudWorkflow.

(** ** The escalation workflow *)

Section EscalationWorkflow.

Import Escalation.

(** Every call of a trace given call by call is a resolution or a
    delegation check. *)
Ltac no_verification :=
  let Hin := fresh "Hin" in
  cbn; intros Hin;
  repeat (apply elem_of_cons in Hin as [-> | Hin]; [reflexivity|]);
  apply elem_of_nil in Hin; contradiction.

(** The runs of [handleCustomerQuery], by the answers of the services. *)
Lemma handleCustomerQueryWith_cases (l1 : Query → Response) (mcpf : MCPF.client)
  (query : Query) :
  let chatbot := "chatbot-l1.support.company.example.agent" in
  let supervisor := "supervisor-ai.management.company.example.agent" in
  handleCustomerQueryWith l1 mcpf query =
  match MCPF.ans_resolve mcpf chatbot with
  | MCPF.Rejected e => (MCPF.Rejected e, [MCPF.Resolve chatbot])
  | MCPF.Fulfilled src =>
    match MCPF.ans_resolve mcpf supervisor with
    | MCPF.Rejected e => (MCPF.Rejected e, [MCPF.Resolve chatbot; MCPF.Resolve supervisor])
    | MCPF.Fulfilled tgt =>
      let resolved := [MCPF.Resolve chatbot; MCPF.Resolve supervisor] in
      let resolved_l1 :=
        {| status := "resolved_l1"; response := l1 query; policyId := None |} in
      if needsEscalation (l1 query) query then
        let calls :=
          resolved ++ [MCPF.CheckDelegation (MCPF.did src) (MCPF.did tgt) "escalate"] in
        match MCPF.a2a_checkDelegation mcpf (MCPF.did src) (MCPF.did tgt) "escalate" with
        | MCPF.Rejected e => (MCPF.Rejected e, calls)
        | MCPF.Fulfilled d =>
          if MCPF.allowed d then
            match MCPF.policy d with
            | None =>
              (MCPF.Rejected
                 (JS.TypeError "Cannot read properties of undefined (reading 'id')"),
               calls)
            | Some p =>
              (MCPF.Fulfilled
                 {| status := "escalated";
                    response := simulateSupervisorResponse query;
                    policyId := Some (MCPF.id p) |},
               calls)
            end
          else (MCPF.Fulfilled resolved_l1, calls)
        end
      else (MCPF.Fulfilled resolved_l1, resolved)
    end
  end.
Proof.
  intros chatbot supervisor. unfold handleCustomerQueryWith.
  unfold MCPF.await_resolve, MCPF.await_checkDelegation, MCPF.policy_id, MCPF.throw.
  fold chatbot supervisor.
  destruct (MCPF.ans_resolve mcpf chatbot) as [src|e]; [simpl|reflexivity].
  destruct (MCPF.ans_resolve mcpf supervisor) as [tgt|e]; [simpl|reflexivity].
  destruct (needsEscalation (l1 query) query); [simpl|reflexivity].
  destruct (MCPF.a2a_checkDelegation mcpf _ _ _) as [d|e]; [simpl|reflexivity].
  destruct d as [[] r [p|]]; reflexivity.
Qed.

(** The stub answers with confidence 0.5 for a "high" severity and with
    0.9 otherwise, so that it asks for escalation exactly for "high". *)
Lemma needsEscalation_simulated (query : Query) :
  needsEscalation (simulateL1Response query) query
  = JS.strict_eq_string (query_severity query) "high".
Proof.
  unfold needsEscalation, simulateL1Response. cbn [confidence].
  destruct (JS.strict_eq_string (query_severity query) "high");
    vm_compute; reflexivity.
Qed.

(** When the escalation is needed and denied, the run falls through to the
    final [return]. *)
Lemma denied_escalation_falls_through (l1 : Query → Response) (mcpf : MCPF.client)
  (query : Query) (src tgt : MCPF.AgentIdentity) (d : MCPF.DelegationDecision) :
  MCPF.ans_resolve mcpf "chatbot-l1.support.company.example.agent" = MCPF.Fulfilled src →
  MCPF.ans_resolve mcpf "supervisor-ai.management.company.example.agent" = MCPF.Fulfilled tgt →
  needsEscalation (l1 query) query = true →
  MCPF.a2a_checkDelegation mcpf (MCPF.did src) (MCPF.did tgt) "escalate" = MCPF.Fulfilled d →
  MCPF.allowed d = false →
  handleCustomerQueryWith l1 mcpf query
  = (MCPF.Fulfilled {| status := "resolved_l1"; response := l1 query; policyId := None |},
     [MCPF.Resolve "chatbot-l1.support.company.example.agent";
      MCPF.Resolve "supervisor-ai.management.company.example.agent";
      MCPF.CheckDelegation (MCPF.did src) (MCPF.did tgt) "escalate"]).
Proof.
  intros Hsrc Htgt Hneeded Hcheck Hdenied.
  rewrite handleCustomerQueryWith_cases. cbv zeta.
  rewrite Hsrc, Htgt, Hneeded, Hcheck, Hdenied. reflexivity.
Qed.

(** [v === s] holds exactly when [v] is the string [s]. *)
Lemma strict_eq_string_true (v : JS.value) (s : string) :
  JS.strict_eq_string v s = true ↔ v = JS.String s.
Proof.
  destruct v as [| |b|x|t]; cbn; try (split; congruence).
  rewrite String.eqb_eq. split; congruence.
Qed.

(** C1, on the code.  A query of severity "high" whose escalation the
    delegation checker denies is answered with the status "resolved_l1" and
    the first-level response: the denial is not encoded in the result. *)
Theorem denied_escalation_reports_resolved_l1 :
  needsEscalation (simulateL1Response (Sample.query (JS.String "high")))
    (Sample.query (JS.String "high")) = true
  ∧ MCPF.a2a_checkDelegation (Sample.mcpf (λ _, true) (Sample.deny "policy expired"))
      (MCPF.did Sample.chatbot) (MCPF.did Sample.supervisor) "escalate"
    = MCPF.Fulfilled (Sample.deny "policy expired")
  ∧ handleCustomerQuery (Sample.mcpf (λ _, true) (Sample.deny "policy expired"))
      (Sample.query (JS.String "high"))
    = (MCPF.Fulfilled
         {| status := "resolved_l1";
            response := {| message := "I can help with that!";
                           confidence := JS.lit 0.5 |};
            policyId := None |},
       [MCPF.Resolve "chatbot-l1.support.company.example.agent";
        MCPF.Resolve "supervisor-ai.management.company.example.agent";
        MCPF.CheckDelegation (MCPF.did Sample.chatbot) (MCPF.did Sample.supervisor)
          "escalate"]).
Proof.
  split; [vm_compute; reflexivity|]. split; [reflexivity|].
  unfold handleCustomerQuery.
  rewrite (denied_escalation_falls_through simulateL1Response _ _
             Sample.chatbot Sample.supervisor (Sample.deny "policy expired"));
    reflexivity.
Qed.

(** C7. Once both agents resolve, the delegation checker is asked exactly
    when the confidence is below 0.8 or the severity is "high": a "high"
    severity escalates whatever the confidence, a confidence below 0.8
    escalates whatever the severity, and a confidence of at least 0.8 with
    another severity returns "resolved_l1" after the two resolutions
    alone.  With the stub responder of the source, no delegation check
    means a confidence of at least 0.8 and a severity other than "high".
    An escalation whose delegation is allowed under a policy returns the
    status "escalated" with the supervisor's response and the id of the
    policy, and a result has that status only under the condition above
    and with such a delegation. *)
Theorem escalation_is_disjunction (l1 : Query → Response) (mcpf : MCPF.client)
  (query : Query) (src tgt : MCPF.AgentIdentity) :
  MCPF.ans_resolve mcpf "chatbot-l1.support.company.example.agent" = MCPF.Fulfilled src →
  MCPF.ans_resolve mcpf "supervisor-ai.management.company.example.agent" = MCPF.Fulfilled tgt →
  let run := handleCustomerQueryWith l1 mcpf query in
  let check := MCPF.CheckDelegation (MCPF.did src) (MCPF.did tgt) "escalate" in
  (query_severity query = JS.String "high" → check ∈ MCPF.trace run)
  ∧ (JS.lt (confidence (l1 query)) (JS.lit 0.8) = true → check ∈ MCPF.trace run)
  ∧ (JS.ge (confidence (l1 query)) (JS.lit 0.8) = true →
     query_severity query ≠ JS.String "high" →
     run = (MCPF.Fulfilled
              {| status := "resolved_l1"; response := l1 query; policyId := None |},
            [MCPF.Resolve "chatbot-l1.support.company.example.agent";
             MCPF.Resolve "supervisor-ai.management.company.example.agent"]))
  ∧ (check ∈ MCPF.trace run
     ↔ JS.lt (confidence (l1 query)) (JS.lit 0.8) = true
       ∨ query_severity query = JS.String "high")
  ∧ (check ∉ MCPF.trace (handleCustomerQuery mcpf query)
     ↔ JS.ge (confidence (simulateL1Response query)) (JS.lit 0.8) = true
       ∧ query_severity query ≠ JS.String "high")
  ∧ (JS.lt (confidence (l1 query)) (JS.lit 0.8) = true
     ∨ query_severity query = JS.String "high" →
     ∀ d p,
       MCPF.a2a_checkDelegation mcpf (MCPF.did src) (MCPF.did tgt) "escalate"
       = MCPF.Fulfilled d →
       MCPF.allowed d = true →
       MCPF.policy d = Some p →
       run = (MCPF.Fulfilled
                {| status := "escalated";
                   response := simulateSupervisorResponse query;
                   policyId := Some (MCPF.id p) |},
              [MCPF.Resolve "chatbot-l1.support.company.example.agent";
               MCPF.Resolve "supervisor-ai.management.company.example.agent";
               check]))
  ∧ (∀ r,
       MCPF.result run = MCPF.Fulfilled r →
       status r = "escalated" →
       (JS.lt (confidence (l1 query)) (JS.lit 0.8) = true
        ∨ query_severity query = JS.String "high")
       ∧ ∃ d p,
           MCPF.a2a_checkDelegation mcpf (MCPF.did src) (MCPF.did tgt) "escalate"
           = MCPF.Fulfilled d
           ∧ MCPF.allowed d = true ∧ MCPF.policy d = Some p
           ∧ r = {| status := "escalated";
                    response := simulateSupervisorResponse query;
                    policyId := Some (MCPF.id p) |}).
Proof.
  intros Hsrc Htgt run check.
  assert (Hneeded : needsEscalation (l1 query) query = true → check ∈ MCPF.trace run).
  { intros Hn. subst run. rewrite handleCustomerQueryWith_cases. cbv zeta.
    rewrite Hsrc, Htgt, Hn.
    destruct (MCPF.a2a_checkDelegation mcpf _ _ _) as [d|e]; [|cbn; set_solver].
    destruct (MCPF.allowed d); [|cbn; set_solver].
    destruct (MCPF.policy d); cbn; set_solver. }
  assert (Hnot : needsEscalation (l1 query) query = false →
                 run = (MCPF.Fulfilled
                          {| status := "resolved_l1"; response := l1 query;
                             policyId := None |},
                        [MCPF.Resolve "chatbot-l1.support.company.example.agent";
                         MCPF.Resolve "supervisor-ai.management.company.example.agent"])).
  { intros Hn. subst run. rewrite handleCustomerQueryWith_cases. cbv zeta.
    rewrite Hsrc, Htgt, Hn. reflexivity. }
  assert (Hiff : check ∈ MCPF.trace run ↔ needsEscalation (l1 query) query = true).
  { split; [|exact Hneeded].
    destruct (needsEscalation (l1 query) query); [reflexivity|].
    rewrite Hnot by reflexivity. cbn. subst check.
    intros Hin. repeat (apply elem_of_cons in Hin as [Hin | Hin]; [discriminate Hin|]).
    apply elem_of_nil in Hin. contradiction. }
  assert (Hor : needsEscalation (l1 query) query = true
                ↔ JS.lt (confidence (l1 query)) (JS.lit 0.8) = true
                  ∨ query_severity query = JS.String "high").
  { unfold needsEscalation. rewrite orb_true_iff, strict_eq_string_true. reflexivity. }
  split; [|split; [|split; [|split; [|split; [|split]]]]].
  6: { intros Hcond d p Hd Ha Hp. subst run check.
       rewrite handleCustomerQueryWith_cases. cbv zeta.
       rewrite Hsrc, Htgt, (proj2 Hor Hcond), Hd, Ha, Hp. reflexivity. }
  6: { intros r Hr Hstatus. subst run.
       rewrite handleCustomerQueryWith_cases in Hr. cbv zeta in Hr.
       rewrite Hsrc, Htgt in Hr.
       destruct (needsEscalation (l1 query) query) eqn:Hn;
         [|injection Hr as <-; discriminate Hstatus].
       split; [apply Hor; reflexivity|].
       destruct (MCPF.a2a_checkDelegation mcpf _ _ _) as [d|e]; [|discriminate Hr].
       destruct (MCPF.allowed d) eqn:Ha; [|injection Hr as <-; discriminate Hstatus].
       destruct (MCPF.policy d) as [p|] eqn:Hp; [|discriminate Hr].
       injection Hr as <-. exists d, p. repeat split; assumption. }
  - intros Hhigh. apply Hneeded, Hor. right. exact Hhigh.
  - intros Hlow. apply Hneeded, Hor. left. exact Hlow.
  - intros Hge Hsev. apply Hnot.
    destruct (needsEscalation (l1 query) query); [|reflexivity].
    destruct (proj1 Hor eq_refl) as [Hlt | Hhigh]; [|contradiction].
    rewrite (ge_not_lt _ _ Hge) in Hlt. discriminate.
  - rewrite Hiff. exact Hor.
  - clear Hneeded Hnot Hiff Hor. unfold handleCustomerQuery.
    rewrite handleCustomerQueryWith_cases. cbv zeta. rewrite Hsrc, Htgt.
    rewrite needsEscalation_simulated. unfold simulateL1Response. cbn [confidence].
    rewrite <- (strict_eq_string_true (query_severity query) "high").
    destruct (JS.strict_eq_string (query_severity query) "high").
    + split; [|intros [_ Hne]; congruence].
      intros Hnotin. exfalso. apply Hnotin.
      destruct (MCPF.a2a_checkDelegation mcpf _ _ _) as [d|e]; [|cbn; set_solver].
      destruct (MCPF.allowed d); [|cbn; set_solver].
      destruct (MCPF.policy d); cbn; set_solver.
    + split.
      * intros _. split; [vm_compute; reflexivity|congruence].
      * intros _. cbn. subst check. intros Hin.
        repeat (apply elem_of_cons in Hin as [Hin | Hin]; [discriminate Hin|]).
        apply elem_of_nil in Hin. contradiction.
Qed.

(** C9. No run of the escalation workflow calls the credential verifier,
    and the run is the same whatever the verifier of the client is. *)
Theorem escalation_never_verifies (mcpf : MCPF.client) (query : Query)
  (verifier : string → MCPF.outcome bool) :
  (∀ c, c ∈ MCPF.trace (handleCustomerQuery mcpf query) → MCPF.is_VerifyAgent c = false)
  ∧ handleCustomerQuery
      {| MCPF.ans_resolve := MCPF.ans_resolve mcpf;
         MCPF.did_verifyAgent := verifier;
         MCPF.a2a_checkDelegation := MCPF.a2a_checkDelegation mcpf |} query
    = handleCustomerQuery mcpf query.
Proof.
  split; [|reflexivity].
  intros c. unfold handleCustomerQuery. rewrite handleCustomerQueryWith_cases. cbv zeta.
  destruct (MCPF.ans_resolve mcpf "chatbot-l1.support.company.example.agent")
    as [src|e]; [|no_verification].
  destruct (MCPF.ans_resolve mcpf "supervisor-ai.management.company.example.agent")
    as [tgt|e]; [|no_verification].
  destruct (needsEscalation _ _); [|no_verification].
  destruct (MCPF.a2a_checkDelegation mcpf _ _ _) as [d|e]; [|no_verification].
  destruct (MCPF.allowed d); [|no_verification].
  destruct (MCPF.policy d); no_verification.
Qed.

End EscalationWorkflow.

(** ** The properties at sample inputs *)

Section Samples.

Import FraudDetection.
#[local] Existing Instance Sample.no_numeric_strings.

(** C2, as stated, fails: with an amount of 100, six recent transactions
    and a low-risk country the score is 0.2, below 0.3, and the reasons
    hold the velocity reason and the note together. *)
Lemma normal_note_beside_velocity_reason :
  calculateRiskScore Sample.velocity_only = JS.lit 0.2
  ∧ JS.lt (calculateRiskScore Sample.velocity_only) (JS.lit 0.3) = true
  ∧ Reference.high_velocity Sample.velocity_only = true
  ∧ generateReasoning Sample.velocity_only (calculateRiskScore Sample.velocity_only)
    = ["High transaction velocity"; "Normal transaction pattern"].
Proof. repeat split; vm_compute; reflexivity. Qed.

Lemma reasoning_below_0_3_witness :
  JS.lt (calculateRiskScore Sample.velocity_only) (JS.lit 0.3) = true
  ∧ generateReasoning Sample.velocity_only (calculateRiskScore Sample.velocity_only)
    = (if Reference.high_velocity Sample.velocity_only
       then ["High transaction velocity"] else [])
      ++ ["Normal transaction pattern"].
Proof.
  split; [reflexivity|].
  apply (proj1 reasoning_below_0_3 Sample.velocity_only). reflexivity.
Defined.

Lemma calculateRiskScore_reference_witness :
  JS.le (tx_amount Sample.at_the_thresholds) (JS.lit 10000) = true
  ∧ JS.le (JS.ToNumber (JS.get (tx_metadata Sample.at_the_thresholds) "recentTxCount"))
      (JS.lit 5) = true
  ∧ JS.strict_eq_string (JS.get (tx_metadata Sample.at_the_thresholds) "toCountry") "XX"
    = false
  ∧ calculateRiskScore Sample.at_the_thresholds = JS.lit 0.0.
Proof.
  split; [reflexivity|]. split; [reflexivity|]. split; [reflexivity|].
  apply (proj2 (proj2 (calculateRiskScore_reference Sample.at_the_thresholds)));
    reflexivity.
Defined.

Lemma reasoning_nonempty_witness :
  JS.ge (calculateRiskScore Sample.all_triggered) (JS.lit 0.3) = true
  ∧ ("High transaction amount"
       ∈ generateReasoning Sample.all_triggered (calculateRiskScore Sample.all_triggered)
     ∨ "High transaction velocity"
       ∈ generateReasoning Sample.all_triggered (calculateRiskScore Sample.all_triggered)
     ∨ "High-risk destination country"
       ∈ generateReasoning Sample.all_triggered (calculateRiskScore Sample.all_triggered)).
Proof.
  split; [reflexivity|].
  apply (proj1 (proj2 (proj2 (reasoning_nonempty Sample.all_triggered)))). reflexivity.
Defined.

Lemma credential_gate_witness :
  MCPF.did_verifyAgent (Sample.mcpf Sample.analyzer_invalid Sample.allow)
    (MCPF.did Sample.analyzer) = MCPF.Fulfilled false
  ∧ MCPF.result (detectFraud (Sample.mcpf Sample.analyzer_invalid Sample.allow)
                   "2025-12-31T10:00:00.000Z" Sample.all_triggered)
    = MCPF.Rejected (JS.Error "Agent credential verification failed")
  ∧ MCPF.trace (detectFraud (Sample.mcpf Sample.analyzer_invalid Sample.allow)
                  "2025-12-31T10:00:00.000Z" Sample.all_triggered)
    = [MCPF.Resolve "fraud-detector.risk.bank.example.agent";
       MCPF.Resolve "risk-analyzer.analytics.bank.example.agent";
       MCPF.VerifyAgent (MCPF.did Sample.detector);
       MCPF.VerifyAgent (MCPF.did Sample.analyzer)].
Proof.
  split; [reflexivity|].
  destruct (credential_gate (Sample.mcpf Sample.analyzer_invalid Sample.allow)
              "2025-12-31T10:00:00.000Z" Sample.all_triggered
              Sample.detector Sample.analyzer true eq_refl eq_refl eq_refl
              (or_intror eq_refl))
    as (_ & Htrace & _ & Hanswered & _).
  split; [exact (Hanswered false eq_refl) | exact Htrace].
Defined.

(** C5, as stated, fails: the verifier answers [false] for the fraud
    detector and the verification of the risk analyzer is rejected; the
    run fails with the error of the verifier, which is not the credential
    error. *)
Lemma credential_error_masked_by_rejection :
  MCPF.ans_resolve MoreSamples.verifier_down "fraud-detector.risk.bank.example.agent"
  = MCPF.Fulfilled Sample.detector
  ∧ MCPF.did_verifyAgent MoreSamples.verifier_down (MCPF.did Sample.detector)
    = MCPF.Fulfilled false
  ∧ MCPF.result (detectFraud MoreSamples.verifier_down "2025-12-31T10:00:00.000Z"
                   Sample.all_triggered)
    = MCPF.Rejected (JS.Error "ETIMEDOUT")
  ∧ MCPF.result (detectFraud MoreSamples.verifier_down "2025-12-31T10:00:00.000Z"
                   Sample.all_triggered)
    ≠ MCPF.Rejected (JS.Error "Agent credential verification failed").
Proof.
  split; [reflexivity|]. split; [reflexivity|]. split; [reflexivity|].
  vm_compute. discriminate.
Qed.

Lemma delegation_denial_reason_witness :
  MCPF.a2a_checkDelegation (Sample.mcpf (λ _, true) (Sample.deny "policy expired"))
    (MCPF.did Sample.detector) (MCPF.did Sample.analyzer) "analyze-transaction"
  = MCPF.Fulfilled (Sample.deny "policy expired")
  ∧ ∃ e, MCPF.result (detectFraud (Sample.mcpf (λ _, true) (Sample.deny "policy expired"))
                        "2025-12-31T10:00:00.000Z" Sample.all_triggered)
         = MCPF.Rejected e
         ∧ JS.message e = "Delegation denied: policy expired"
         ∧ Reference.contains (JS.message e) "policy expired".
Proof.
  split; [reflexivity|].
  apply (delegation_denial_reason (Sample.mcpf (λ _, true) (Sample.deny "policy expired"))
           "2025-12-31T10:00:00.000Z" Sample.all_triggered
           Sample.detector Sample.analyzer (Sample.deny "policy expired")
           "policy expired");
    reflexivity.
Defined.

Lemma detectFraud_idempotent_witness :
  Reference.same_responses (Sample.mcpf (λ _, true) Sample.allow)
    (Sample.mcpf (λ _, true) Sample.allow)
  ∧ match MCPF.result (detectFraud (Sample.mcpf (λ _, true) Sample.allow)
                         "2025-12-31T10:00:00.000Z" Sample.all_triggered),
          MCPF.result (detectFraud (Sample.mcpf (λ _, true) Sample.allow)
                         "2025-12-31T10:00:07.500Z" Sample.all_triggered) with
    | MCPF.Fulfilled r1, MCPF.Fulfilled r2 =>
      Reference.same_except_timestamp r1 r2
      ∧ timestamp r1 = "2025-12-31T10:00:00.000Z"
      ∧ timestamp r2 = "2025-12-31T10:00:07.500Z"
    | MCPF.Rejected e1, MCPF.Rejected e2 => e1 = e2
    | _, _ => False
    end.
Proof.
  assert (Hsame : Reference.same_responses (Sample.mcpf (λ _, true) Sample.allow)
                    (Sample.mcpf (λ _, true) Sample.allow))
    by (repeat split).
  split; [exact Hsame|].
  exact (proj2 (detectFraud_idempotent _ _ "2025-12-31T10:00:00.000Z"
                  "2025-12-31T10:00:07.500Z" Sample.all_triggered Hsame)).
Defined.

Lemma escalation_is_disjunction_witness :
  Escalation.confidence (Sample.confident_l1 (Sample.query (JS.String "high")))
  = JS.lit 0.9
  ∧ MCPF.CheckDelegation (MCPF.did Sample.chatbot) (MCPF.did Sample.supervisor) "escalate"
    ∈ MCPF.trace (Escalation.handleCustomerQueryWith Sample.confident_l1
                    (Sample.mcpf (λ _, true) Sample.allow)
                    (Sample.query (JS.String "high")))
  ∧ Escalation.handleCustomerQueryWith Sample.confident_l1
      (Sample.mcpf (λ _, true) Sample.allow) (Sample.query (JS.String "high"))
    = (MCPF.Fulfilled
         {| Escalation.status := "escalated";
            Escalation.response :=
              Escalation.simulateSupervisorResponse (Sample.query (JS.String "high"));
            Escalation.policyId := Some "pol_xyz" |},
       [MCPF.Resolve "chatbot-l1.support.company.example.agent";
        MCPF.Resolve "supervisor-ai.management.company.example.agent";
        MCPF.CheckDelegation (MCPF.did Sample.chatbot) (MCPF.did Sample.supervisor)
          "escalate"]).
Proof.
  split; [reflexivity|].
  destruct (escalation_is_disjunction Sample.confident_l1
              (Sample.mcpf (λ _, true) Sample.allow)
              (Sample.query (JS.String "high"))
              Sample.chatbot Sample.supervisor eq_refl eq_refl)
    as (Hhigh & _ & _ & _ & _ & Hescalated & _).
  split; [exact (Hhigh eq_refl)|].
  exact (Hescalated (or_intror eq_refl) Sample.allow Sample.pol_xyz
           eq_refl eq_refl eq_refl).
Defined.

(** The scores 0.5 and 0.8 are reached: an amount above 50,000 alone gives
    0.3 + 0.2 = 0.5 and ALLOW; with the high-risk country it gives
    0.5 + 0.3 = 0.8 and REVIEW; the four increments give 1.0 and BLOCK. *)
Lemma decisions_at_the_boundaries :
  calculateRiskScore (Sample.transaction 60000 (Sample.metadata 0 "US")) = JS.lit 0.5
  ∧ decide (calculateRiskScore (Sample.transaction 60000 (Sample.metadata 0 "US"))) = ALLOW
  ∧ calculateRiskScore (Sample.transaction 60000 (Sample.metadata 0 "XX")) = JS.lit 0.8
  ∧ decide (calculateRiskScore (Sample.transaction 60000 (Sample.metadata 0 "XX"))) = REVIEW
  ∧ calculateRiskScore Sample.all_triggered = JS.lit 1.0
  ∧ decide (calculateRiskScore Sample.all_triggered) = BLOCK.
Proof. repeat split; vm_compute; reflexivity. Qed.

(** Without metadata both fields read as [undefined]: no velocity and no
    country increment, and no reason for them. *)
Lemma no_metadata :
  calculateRiskScore (Sample.transaction 100 ∅) = JS.lit 0
  ∧ generateReasoning (Sample.transaction 100 ∅)
      (calculateRiskScore (Sample.transaction 100 ∅))
    = ["Normal transaction pattern"].
Proof. split; vm_compute; reflexivity. Qed.

(** The run of the example of the source: amount 15,000, three recent
    transactions, to the US. *)
Lemma detectFraud_example :
  detectFraud (Sample.mcpf (λ _, true) Sample.allow) "2025-12-31T10:00:00.000Z"
    (Sample.transaction 15000 (Sample.metadata 3 "US"))
  = (MCPF.Fulfilled
       {| transactionId := "tx_abc123";
          fraudDetectorDid := "did:web:bank.example:fraud-detector";
          riskAnalyzerDid := "did:web:analytics.bank.example:risk-analyzer";
          policyId := "pol_xyz";
          riskScore := JS.lit 0.3;
          decision := ALLOW;
          reasoning := ["High transaction amount"];
          timestamp := "2025-12-31T10:00:00.000Z" |},
     [MCPF.Resolve "fraud-detector.risk.bank.example.agent";
      MCPF.Resolve "risk-analyzer.analytics.bank.example.agent";
      MCPF.VerifyAgent "did:web:bank.example:fraud-detector";
      MCPF.VerifyAgent "did:web:analytics.bank.example:risk-analyzer";
      MCPF.CheckDelegation "did:web:bank.example:fraud-detector"
        "did:web:analytics.bank.example:risk-analyzer" "analyze-transaction"]).
Proof. vm_compute. reflexivity. Qed.

End Samples.

(** ** The order on numbers, continued *)

Section NumberOrder.

(** [x < y] and [y <= z] give [x < z]. *)
Lemma SFltb_SFleb_trans (x y z : JS.number) :
  SFltb x y = true → SFleb y z = true → SFltb x z = true.
Proof.
  unfold SFltb, SFleb.
  destruct x as [sx|sx| |sx mx ex], y as [sy|sy| |sy my ey], z as [sz|sz| |sz mz ez];
    try (cbn; congruence);
    try (destruct sx; cbn; congruence);
    try (destruct sy; cbn; congruence);
    try (destruct sz; cbn; congruence);
    try (destruct sx, sy; cbn; congruence);
    try (destruct sx, sz; cbn; congruence);
    try (destruct sy, sz; cbn; congruence);
    try (destruct sx, sy, sz; cbn; congruence).
  destruct sx, sy, sz; try (cbn; congruence);
    cbn [SFcompare];
    change (Pos.compare_cont Eq) with Pos.compare;
    destruct (Z.compare_spec ex ey), (Z.compare_spec ey ez), (Z.compare_spec ex ez);
    try congruence; try lia; subst;
    destruct (Pos.compare_spec mx my), (Pos.compare_spec my mz),
      (Pos.compare_spec mx mz);
    cbn; try congruence; try lia.
Qed.

(** A number above [c] stays above [c] when it grows. *)
Lemma gt_le_trans (a b c : JS.number) :
  JS.gt a c = true → JS.le a b = true → JS.gt b c = true.
Proof. unfold JS.gt, JS.le. apply SFltb_SFleb_trans. Qed.

End NumberOrder.

(** ** Fraud scoring: values, decisions and inputs *)

Section ScoreProperties.

Import FraudDetection Reference Parts.
Context `{JS.NumericStrings}.

(** A closed proposition that stdpp decides is settled by evaluation. *)
Ltac by_evaluation := apply (bool_decide_unpack _); vm_compute; exact I.

(** Replace a closed comparison or decision by its value. *)
Ltac evaluate_score :=
  repeat match goal with
  | |- context [JS.lt ?a ?b] =>
    let v := eval vm_compute in (JS.lt a b) in change (JS.lt a b) with v
  | |- context [decide ?a] =>
    let v := eval vm_compute in (decide a) in change (decide a) with v
  end.

(** The four tests of a transaction, with the one dependency between them. *)
Ltac by_conditions tx :=
  let Hamount := fresh "Hamount" in
  pose proof (gt_50000_gt_10000 (tx_amount tx)) as Hamount;
  fold (high_amount tx) (very_high_amount tx) in Hamount;
  destruct (high_amount tx), (very_high_amount tx), (high_velocity tx),
    (high_risk_country tx); try discriminate (Hamount eq_refl); clear Hamount.

(** Reading a key of an object after it was set or removed. *)
Lemma get_insert (o : gmap string JS.value) (k : string) (v : JS.value) :
  JS.get (<[k:=v]> o) k = v.
Proof. unfold JS.get. rewrite lookup_insert_eq. reflexivity. Qed.

Lemma get_insert_ne (o : gmap string JS.value) (k k' : string) (v : JS.value) :
  k ≠ k' → JS.get (<[k:=v]> o) k' = JS.get o k'.
Proof. intros Hne. unfold JS.get. rewrite lookup_insert_ne by exact Hne. reflexivity. Qed.

Lemma get_delete (o : gmap string JS.value) (k : string) :
  JS.get (delete k o) k = JS.Undefined.
Proof. unfold JS.get. rewrite lookup_delete_eq. reflexivity. Qed.

Lemma get_delete_ne (o : gmap string JS.value) (k k' : string) :
  k ≠ k' → JS.get (delete k o) k' = JS.get o k'.
Proof. intros Hne. unfold JS.get. rewrite lookup_delete_ne by exact Hne. reflexivity. Qed.

(** X1. The score is one of 0, 0.2, 0.3, 0.5, 0.6, 0.7, 0.8 and 1: it is a
    number between 0 and 1, never [NaN], whatever the amount and the
    metadata are. *)
Theorem score_values (tx : Transaction) :
  (calculateRiskScore tx = JS.lit 0 ∨ calculateRiskScore tx = JS.lit 0.2
   ∨ calculateRiskScore tx = JS.lit 0.3 ∨ calculateRiskScore tx = JS.lit 0.5
   ∨ calculateRiskScore tx = JS.lit 0.6 ∨ calculateRiskScore tx = JS.lit 0.7
   ∨ calculateRiskScore tx = JS.lit 0.8 ∨ calculateRiskScore tx = JS.lit 1.0)
  ∧ JS.le (JS.lit 0) (calculateRiskScore tx) = true
  ∧ JS.le (calculateRiskScore tx) (JS.lit 1.0) = true.
Proof.
  rewrite calculateRiskScore_tenths.
  by_conditions tx; vm_compute; auto 10.
Qed.

(** X2. The clamp never fires: the sum of the increments is at most 1.0,
    so that the score returned is the sum itself. *)
Theorem clamp_never_fires (tx : Transaction) :
  calculateRiskScore tx = JS.Math_min (scoreBeforeClamp tx) (JS.lit 1.0)
  ∧ JS.le (scoreBeforeClamp tx) (JS.lit 1.0) = true
  ∧ calculateRiskScore tx = scoreBeforeClamp tx.
Proof.
  split; [reflexivity|].
  unfold calculateRiskScore, scoreBeforeClamp.
  destruct (JS.gt (tx_amount tx) (JS.lit 10000)),
           (JS.gt (tx_amount tx) (JS.lit 50000)),
           (JS.gt_number _ _), (JS.strict_eq_string _ _);
    vm_compute; split; reflexivity.
Qed.

(** X3. The decision in terms of the tests: BLOCK exactly when the amount is
    above 50,000, the velocity is high and the country is the high-risk
    one; otherwise REVIEW exactly when the amount is above 10,000 to the
    high-risk country, or above 50,000 with a high velocity.  Velocity and
    country alone, or the amount alone, give ALLOW. *)
Theorem decision_by_conditions (tx : Transaction) :
  decide (calculateRiskScore tx)
  = if very_high_amount tx && high_velocity tx && high_risk_country tx then BLOCK
    else if (high_amount tx && high_risk_country tx)
            || (very_high_amount tx && high_velocity tx) then REVIEW
    else ALLOW.
Proof.
  rewrite calculateRiskScore_tenths.
  by_conditions tx; vm_compute; reflexivity.
Qed.

(** X4. The score does not decrease when the amount grows, the rest of the
    transaction being the same. *)
Theorem score_monotone_in_amount (tx : Transaction) (a b : JS.number) :
  JS.le a b = true →
  JS.le (calculateRiskScore (with_amount tx a)) (calculateRiskScore (with_amount tx b))
  = true.
Proof.
  intros Hle. rewrite !calculateRiskScore_tenths.
  pose proof (gt_le_trans a b (JS.lit 10000)) as H10.
  pose proof (gt_le_trans a b (JS.lit 50000)) as H50.
  change (high_velocity (with_amount tx b)) with (high_velocity tx).
  change (high_velocity (with_amount tx a)) with (high_velocity tx).
  change (high_risk_country (with_amount tx b)) with (high_risk_country tx).
  change (high_risk_country (with_amount tx a)) with (high_risk_country tx).
  change (high_amount (with_amount tx a)) with (JS.gt a (JS.lit 10000)).
  change (high_amount (with_amount tx b)) with (JS.gt b (JS.lit 10000)).
  change (very_high_amount (with_amount tx a)) with (JS.gt a (JS.lit 50000)).
  change (very_high_amount (with_amount tx b)) with (JS.gt b (JS.lit 50000)).
  destruct (JS.gt a (JS.lit 10000)); [rewrite (H10 eq_refl Hle)|];
    (destruct (JS.gt a (JS.lit 50000)); [rewrite (H50 eq_refl Hle)|]);
    destruct (JS.gt b (JS.lit 10000)), (JS.gt b (JS.lit 50000)),
      (high_velocity tx), (high_risk_country tx);
    vm_compute; reflexivity.
Qed.

(** X5. The score and the reasons read two keys of the metadata only:
    setting or removing any other key changes neither. *)
Theorem other_metadata_ignored (tx : Transaction) (k : string) (v : JS.value)
  (score : JS.number) :
  k ≠ "recentTxCount" → k ≠ "toCountry" →
  calculateRiskScore (with_metadata tx (<[k:=v]> (tx_metadata tx)))
  = calculateRiskScore tx
  ∧ generateReasoning (with_metadata tx (<[k:=v]> (tx_metadata tx))) score
    = generateReasoning tx score
  ∧ calculateRiskScore (with_metadata tx (delete k (tx_metadata tx)))
    = calculateRiskScore tx
  ∧ generateReasoning (with_metadata tx (delete k (tx_metadata tx))) score
    = generateReasoning tx score.
Proof.
  intros Hcount Hcountry.
  unfold calculateRiskScore, generateReasoning.
  cbn [tx_metadata tx_amount with_metadata].
  rewrite !get_insert_ne, !get_delete_ne by congruence.
  repeat split.
Qed.

(** X6. A count that is absent, [null], [false], [0], [-0], [NaN] or the
    empty string is no high velocity: the score and the reasons are those
    of the transaction without the key. *)
Theorem falsy_count_is_no_velocity (tx : Transaction) (v : JS.value)
  (score : JS.number) :
  falsy v = true →
  high_velocity (with_metadata tx (<["recentTxCount":=v]> (tx_metadata tx))) = false
  ∧ calculateRiskScore (with_metadata tx (<["recentTxCount":=v]> (tx_metadata tx)))
    = calculateRiskScore (with_metadata tx (delete "recentTxCount" (tx_metadata tx)))
  ∧ generateReasoning (with_metadata tx (<["recentTxCount":=v]> (tx_metadata tx))) score
    = generateReasoning (with_metadata tx (delete "recentTxCount" (tx_metadata tx))) score.
Proof.
  intros Hfalsy.
  assert (Hv : JS.gt_number v (JS.lit 5) = false).
  { unfold falsy in Hfalsy. destruct v as [| |[]|x|s]; try discriminate; try reflexivity.
    - destruct x; try discriminate; reflexivity.
    - cbn in Hfalsy. unfold JS.gt_number, JS.ToNumber.
      destruct (String.eqb s ""); [reflexivity|discriminate]. }
  unfold high_velocity, calculateRiskScore, generateReasoning.
  cbn [tx_metadata tx_amount with_metadata].
  rewrite !or_0_gt_5, !get_insert, !get_delete.
  rewrite !get_insert_ne, !get_delete_ne by discriminate.
  rewrite Hv.
  change (JS.gt_number JS.Undefined (JS.lit 5)) with false.
  repeat split.
Qed.

(** X7. The decision and the reasons fit together: a REVIEW or a BLOCK
    comes with the amount reason, with at least two reasons and without
    the "normal pattern" note; a BLOCK comes with the three reasons; and
    there are never more than three reasons, nor the same one twice. *)
Theorem decision_and_reasons (tx : Transaction) :
  let score := calculateRiskScore tx in
  let reasons := generateReasoning tx score in
  (decide score ≠ ALLOW →
   "High transaction amount" ∈ reasons ∧ (2 ≤ length reasons)%nat
   ∧ "Normal transaction pattern" ∉ reasons)
  ∧ (decide score = BLOCK →
     reasons = ["High transaction amount"; "High transaction velocity";
                "High-risk destination country"])
  ∧ (length reasons ≤ 3)%nat
  ∧ NoDup reasons.
Proof.
  intros score reasons. subst score reasons.
  rewrite generateReasoning_flags, calculateRiskScore_tenths.
  by_conditions tx; evaluate_score; cbn [app];
    (split; [|split; [|split]]);
    try (intros Hd; try discriminate Hd; try (exfalso; apply Hd; reflexivity));
    try reflexivity; try (repeat split); by_evaluation.
Qed.

End ScoreProperties.

(** ** The fraud-detection workflow: outcomes *)

Section FraudOutcomes.

Import FraudDetection.
Context `{JS.NumericStrings}.

(** X8. A run returns a result exactly when both agents resolve, both
    credentials verify, and the delegation is allowed under a policy; the
    result then holds the transaction id, the two resolved DIDs, the id of
    that policy, the score, decision and reasons of the transaction, and
    the time of completion. *)
Theorem detectFraud_fulfilled_iff (mcpf : MCPF.client) (now : string)
  (tx : Transaction) (r : FraudDetectionResult) :
  MCPF.result (detectFraud mcpf now tx) = MCPF.Fulfilled r
  ↔ ∃ src tgt d p,
      MCPF.ans_resolve mcpf "fraud-detector.risk.bank.example.agent" = MCPF.Fulfilled src
      ∧ MCPF.ans_resolve mcpf "risk-analyzer.analytics.bank.example.agent"
        = MCPF.Fulfilled tgt
      ∧ MCPF.did_verifyAgent mcpf (MCPF.did src) = MCPF.Fulfilled true
      ∧ MCPF.did_verifyAgent mcpf (MCPF.did tgt) = MCPF.Fulfilled true
      ∧ MCPF.a2a_checkDelegation mcpf (MCPF.did src) (MCPF.did tgt) "analyze-transaction"
        = MCPF.Fulfilled d
      ∧ MCPF.allowed d = true
      ∧ MCPF.policy d = Some p
      ∧ r = {| transactionId := tx_id tx;
               fraudDetectorDid := MCPF.did src;
               riskAnalyzerDid := MCPF.did tgt;
               policyId := MCPF.id p;
               riskScore := calculateRiskScore tx;
               decision := decide (calculateRiskScore tx);
               reasoning := generateReasoning tx (calculateRiskScore tx);
               timestamp := now |}.
Proof.
  rewrite detectFraud_cases. cbv zeta. split.
  - destruct (MCPF.ans_resolve mcpf "fraud-detector.risk.bank.example.agent")
      as [src|e]; [|discriminate].
    destruct (MCPF.ans_resolve mcpf "risk-analyzer.analytics.bank.example.agent")
      as [tgt|e]; [|discriminate].
    destruct (MCPF.did_verifyAgent mcpf (MCPF.did src)) as [v1|e] eqn:Hv1; [|discriminate].
    destruct (MCPF.did_verifyAgent mcpf (MCPF.did tgt)) as [v2|e] eqn:Hv2; [|discriminate].
    destruct v1, v2; try discriminate. cbn [negb orb].
    destruct (MCPF.a2a_checkDelegation mcpf _ _ _) as [d|e] eqn:Hd; [|discriminate].
    destruct (MCPF.allowed d) eqn:Ha; [|discriminate]. cbn [negb].
    destruct (MCPF.policy d) as [p|] eqn:Hp; [|discriminate].
    cbn. intros [= <-]. exists src, tgt, d, p. repeat split; assumption.
  - intros (src & tgt & d & p & -> & -> & -> & -> & Hd & Ha & Hp & ->).
    cbn [negb orb]. rewrite Hd, Ha. cbn [negb]. rewrite Hp. reflexivity.
Qed.

(** X9. What a run can be rejected with: an error of the resolver, of the
    verifier or of the delegation checker, passed on unchanged; the
    credential error; the denial error of a denied delegation; or the
    [TypeError] of an allowed delegation without policy.  Nothing else is
    thrown. *)
Theorem detectFraud_rejections (mcpf : MCPF.client) (now : string)
  (tx : Transaction) (e : JS.exn) :
  MCPF.result (detectFraud mcpf now tx) = MCPF.Rejected e →
  (∃ n, MCPF.ans_resolve mcpf n = MCPF.Rejected e)
  ∨ (∃ d, MCPF.did_verifyAgent mcpf d = MCPF.Rejected e)
  ∨ (∃ f t a, MCPF.a2a_checkDelegation mcpf f t a = MCPF.Rejected e)
  ∨ e = JS.Error "Agent credential verification failed"
  ∨ (∃ f t a d, MCPF.a2a_checkDelegation mcpf f t a = MCPF.Fulfilled d
                ∧ MCPF.allowed d = false
                ∧ e = JS.Error ("Delegation denied: " +:+ MCPF.reason_text d))
  ∨ (∃ f t a d, MCPF.a2a_checkDelegation mcpf f t a = MCPF.Fulfilled d
                ∧ MCPF.allowed d = true ∧ MCPF.policy d = None
                ∧ e = Parts.no_policy).
Proof.
  rewrite detectFraud_cases. cbv zeta.
  destruct (MCPF.ans_resolve mcpf "fraud-detector.risk.bank.example.agent")
    as [src|e1] eqn:Hsrc; [|intros [= <-]; eauto].
  destruct (MCPF.ans_resolve mcpf "risk-analyzer.analytics.bank.example.agent")
    as [tgt|e1] eqn:Htgt; [|intros [= <-]; eauto].
  destruct (MCPF.did_verifyAgent mcpf (MCPF.did src)) as [v1|e1] eqn:Hv1;
    [|intros [= <-]; eauto].
  destruct (MCPF.did_verifyAgent mcpf (MCPF.did tgt)) as [v2|e1] eqn:Hv2;
    [|intros [= <-]; eauto].
  destruct (negb v1 || negb v2); [intros [= <-]; auto|].
  destruct (MCPF.a2a_checkDelegation mcpf _ _ _) as [d|e1] eqn:Hd;
    [|intros [= <-]; eauto 10].
  destruct (MCPF.allowed d) eqn:Ha; cbn [negb].
  - destruct (MCPF.policy d) eqn:Hp; [discriminate|].
    intros [= <-]. do 5 right. eauto 10.
  - intros [= <-]. do 4 right. left. eauto 10.
Qed.

(** X10. When the resolver rejects the name of the fraud detector, or that
    of the risk analyzer, the run is rejected with the same error and
    neither the verifier nor the delegation checker is called. *)
Theorem resolution_failure_stops (mcpf : MCPF.client) (now : string)
  (tx : Transaction) (e : JS.exn) :
  MCPF.ans_resolve mcpf "fraud-detector.risk.bank.example.agent" = MCPF.Rejected e
  ∨ (∃ src, MCPF.ans_resolve mcpf "fraud-detector.risk.bank.example.agent"
            = MCPF.Fulfilled src
            ∧ MCPF.ans_resolve mcpf "risk-analyzer.analytics.bank.example.agent"
              = MCPF.Rejected e) →
  MCPF.result (detectFraud mcpf now tx) = MCPF.Rejected e
  ∧ ∀ c, c ∈ MCPF.trace (detectFraud mcpf now tx) →
         MCPF.is_VerifyAgent c = false ∧ MCPF.is_CheckDelegation c = false.
Proof.
  rewrite detectFraud_cases. cbv zeta.
  intros [-> | (src & -> & ->)]; (split; [reflexivity|]); cbn; intros c Hc;
    repeat (apply elem_of_cons in Hc as [-> | Hc]; [split; reflexivity|]);
    apply elem_of_nil in Hc; contradiction.
Qed.

(** X11. A rejected verification is passed on: when the verification of
    the fraud detector is rejected the risk analyzer is not verified, and
    when that of the risk analyzer is rejected the run fails with its
    error even if the fraud detector was found invalid.  The delegation
    checker is not called. *)
Theorem verification_rejected (mcpf : MCPF.client) (now : string) (tx : Transaction)
  (src tgt : MCPF.AgentIdentity) (e : JS.exn) :
  MCPF.ans_resolve mcpf "fraud-detector.risk.bank.example.agent" = MCPF.Fulfilled src →
  MCPF.ans_resolve mcpf "risk-analyzer.analytics.bank.example.agent" = MCPF.Fulfilled tgt →
  (MCPF.did_verifyAgent mcpf (MCPF.did src) = MCPF.Rejected e →
   detectFraud mcpf now tx
   = (MCPF.Rejected e,
      [MCPF.Resolve "fraud-detector.risk.bank.example.agent";
       MCPF.Resolve "risk-analyzer.analytics.bank.example.agent";
       MCPF.VerifyAgent (MCPF.did src)]))
  ∧ (∀ detectorValid,
       MCPF.did_verifyAgent mcpf (MCPF.did src) = MCPF.Fulfilled detectorValid →
       MCPF.did_verifyAgent mcpf (MCPF.did tgt) = MCPF.Rejected e →
       detectFraud mcpf now tx
       = (MCPF.Rejected e,
          [MCPF.Resolve "fraud-detector.risk.bank.example.agent";
           MCPF.Resolve "risk-analyzer.analytics.bank.example.agent";
           MCPF.VerifyAgent (MCPF.did src); MCPF.VerifyAgent (MCPF.did tgt)])).
Proof.
  intros Hsrc Htgt. rewrite detectFraud_cases. cbv zeta. rewrite Hsrc, Htgt.
  split.
  - intros ->. reflexivity.
  - intros v Hv1 Hv2. rewrite Hv1, Hv2. reflexivity.
Qed.

(** X12. An allowed delegation that carries no policy gives no result: the
    run is rejected with a [TypeError] after the five calls. *)
Theorem allowed_without_policy (mcpf : MCPF.client) (now : string) (tx : Transaction)
  (src tgt : MCPF.AgentIdentity) (d : MCPF.DelegationDecision) :
  MCPF.ans_resolve mcpf "fraud-detector.risk.bank.example.agent" = MCPF.Fulfilled src →
  MCPF.ans_resolve mcpf "risk-analyzer.analytics.bank.example.agent" = MCPF.Fulfilled tgt →
  MCPF.did_verifyAgent mcpf (MCPF.did src) = MCPF.Fulfilled true →
  MCPF.did_verifyAgent mcpf (MCPF.did tgt) = MCPF.Fulfilled true →
  MCPF.a2a_checkDelegation mcpf (MCPF.did src) (MCPF.did tgt) "analyze-transaction"
  = MCPF.Fulfilled d →
  MCPF.allowed d = true →
  MCPF.policy d = None →
  detectFraud mcpf now tx
  = (MCPF.Rejected Parts.no_policy,
     [MCPF.Resolve "fraud-detector.risk.bank.example.agent";
      MCPF.Resolve "risk-analyzer.analytics.bank.example.agent";
      MCPF.VerifyAgent (MCPF.did src); MCPF.VerifyAgent (MCPF.did tgt);
      MCPF.CheckDelegation (MCPF.did src) (MCPF.did tgt) "analyze-transaction"]).
Proof.
  intros Hsrc Htgt Hv1 Hv2 Hd Ha Hp.
  rewrite detectFraud_cases. cbv zeta. rewrite Hsrc, Htgt, Hv1, Hv2. cbn [negb orb].
  rewrite Hd, Ha. cbn [negb]. rewrite Hp. reflexivity.
Qed.

(** X13. A denial that carries no reason is reported as "Delegation denied:
    undefined". *)
Theorem denial_without_reason (mcpf : MCPF.client) (now : string) (tx : Transaction)
  (src tgt : MCPF.AgentIdentity) (d : MCPF.DelegationDecision) :
  MCPF.ans_resolve mcpf "fraud-detector.risk.bank.example.agent" = MCPF.Fulfilled src →
  MCPF.ans_resolve mcpf "risk-analyzer.analytics.bank.example.agent" = MCPF.Fulfilled tgt →
  MCPF.did_verifyAgent mcpf (MCPF.did src) = MCPF.Fulfilled true →
  MCPF.did_verifyAgent mcpf (MCPF.did tgt) = MCPF.Fulfilled true →
  MCPF.a2a_checkDelegation mcpf (MCPF.did src) (MCPF.did tgt) "analyze-transaction"
  = MCPF.Fulfilled d →
  MCPF.allowed d = false →
  MCPF.reason d = None →
  MCPF.result (detectFraud mcpf now tx)
  = MCPF.Rejected (JS.Error "Delegation denied: undefined").
Proof.
  intros Hsrc Htgt Hv1 Hv2 Hd Ha Hr.
  rewrite detectFraud_cases. cbv zeta. rewrite Hsrc, Htgt, Hv1, Hv2. cbn [negb orb].
  rewrite Hd, Ha. cbn [negb]. unfold MCPF.reason_text. rewrite Hr. reflexivity.
Qed.

(** X20. The delegation checker is called in a run exactly when both
    agents resolve and both verifications answer [true]; the run then
    makes five calls: the two resolutions, the two verifications and the
    delegation check, in this order, whatever the checker answers. *)
Theorem delegation_checked_iff_verified (mcpf : MCPF.client) (now : string)
  (tx : Transaction) :
  ((∃ c, c ∈ MCPF.trace (detectFraud mcpf now tx) ∧ MCPF.is_CheckDelegation c = true)
   ↔ ∃ src tgt,
       MCPF.ans_resolve mcpf "fraud-detector.risk.bank.example.agent" = MCPF.Fulfilled src
       ∧ MCPF.ans_resolve mcpf "risk-analyzer.analytics.bank.example.agent"
         = MCPF.Fulfilled tgt
       ∧ MCPF.did_verifyAgent mcpf (MCPF.did src) = MCPF.Fulfilled true
       ∧ MCPF.did_verifyAgent mcpf (MCPF.did tgt) = MCPF.Fulfilled true)
  ∧ (∀ src tgt,
       MCPF.ans_resolve mcpf "fraud-detector.risk.bank.example.agent" = MCPF.Fulfilled src →
       MCPF.ans_resolve mcpf "risk-analyzer.analytics.bank.example.agent"
       = MCPF.Fulfilled tgt →
       MCPF.did_verifyAgent mcpf (MCPF.did src) = MCPF.Fulfilled true →
       MCPF.did_verifyAgent mcpf (MCPF.did tgt) = MCPF.Fulfilled true →
       MCPF.trace (detectFraud mcpf now tx)
       = [MCPF.Resolve "fraud-detector.risk.bank.example.agent";
          MCPF.Resolve "risk-analyzer.analytics.bank.example.agent";
          MCPF.VerifyAgent (MCPF.did src); MCPF.VerifyAgent (MCPF.did tgt);
          MCPF.CheckDelegation (MCPF.did src) (MCPF.did tgt) "analyze-transaction"]).
Proof.
  assert (Hcalls : ∀ src tgt,
    MCPF.ans_resolve mcpf "fraud-detector.risk.bank.example.agent" = MCPF.Fulfilled src →
    MCPF.ans_resolve mcpf "risk-analyzer.analytics.bank.example.agent"
    = MCPF.Fulfilled tgt →
    MCPF.did_verifyAgent mcpf (MCPF.did src) = MCPF.Fulfilled true →
    MCPF.did_verifyAgent mcpf (MCPF.did tgt) = MCPF.Fulfilled true →
    MCPF.trace (detectFraud mcpf now tx)
    = [MCPF.Resolve "fraud-detector.risk.bank.example.agent";
       MCPF.Resolve "risk-analyzer.analytics.bank.example.agent";
       MCPF.VerifyAgent (MCPF.did src); MCPF.VerifyAgent (MCPF.did tgt);
       MCPF.CheckDelegation (MCPF.did src) (MCPF.did tgt) "analyze-transaction"]).
  { intros src tgt Hsrc Htgt Hv1 Hv2.
    rewrite detectFraud_cases. cbv zeta. rewrite Hsrc, Htgt, Hv1, Hv2. cbn [negb orb].
    destruct (MCPF.a2a_checkDelegation mcpf _ _ _) as [d|e]; [|reflexivity].
    destruct (negb (MCPF.allowed d)); [reflexivity|].
    destruct (MCPF.policy d); reflexivity. }
  split; [|exact Hcalls]. split.
  - intros (c & Hc & Hk).
    destruct (verify_before_delegate mcpf now tx c Hc Hk)
      as (src & tgt & Hsrc & Htgt & Hv1 & Hv2 & _).
    exists src, tgt. repeat split; assumption.
  - intros (src & tgt & Hsrc & Htgt & Hv1 & Hv2).
    exists (MCPF.CheckDelegation (MCPF.did src) (MCPF.did tgt) "analyze-transaction").
    split; [|reflexivity].
    rewrite (Hcalls src tgt Hsrc Htgt Hv1 Hv2).
    do 4 apply list_elem_of_further. apply list_elem_of_here.
Qed.

End FraudOutcomes.

(** ** The escalation workflow: outcomes *)

Section EscalationOutcomes.

Import Escalation.

(** X14. A returned result is one of two kinds.  It is "escalated", for a
    query of severity "high" whose delegation was allowed under a policy,
    and then holds the supervisor's response and the id of the policy; or
    it is "resolved_l1", and then holds the first-level response and no
    policy id. *)
Theorem handleCustomerQuery_result (mcpf : MCPF.client) (query : Query)
  (r : WorkflowResult) :
  MCPF.result (handleCustomerQuery mcpf query) = MCPF.Fulfilled r →
  (status r = "escalated"
   ∧ response r = simulateSupervisorResponse query
   ∧ query_severity query = JS.String "high"
   ∧ ∃ src tgt d p,
       MCPF.ans_resolve mcpf "chatbot-l1.support.company.example.agent"
       = MCPF.Fulfilled src
       ∧ MCPF.ans_resolve mcpf "supervisor-ai.management.company.example.agent"
         = MCPF.Fulfilled tgt
       ∧ MCPF.a2a_checkDelegation mcpf (MCPF.did src) (MCPF.did tgt) "escalate"
         = MCPF.Fulfilled d
       ∧ MCPF.allowed d = true ∧ MCPF.policy d = Some p
       ∧ policyId r = Some (MCPF.id p))
  ∨ (status r = "resolved_l1"
     ∧ response r = simulateL1Response query
     ∧ policyId r = None).
Proof.
  unfold handleCustomerQuery. rewrite handleCustomerQueryWith_cases. cbv zeta.
  destruct (MCPF.ans_resolve mcpf "chatbot-l1.support.company.example.agent")
    as [src|e]; [|discriminate].
  destruct (MCPF.ans_resolve mcpf "supervisor-ai.management.company.example.agent")
    as [tgt|e]; [|discriminate].
  rewrite needsEscalation_simulated.
  destruct (JS.strict_eq_string (query_severity query) "high") eqn:Hhigh.
  2: { intros [= <-]. right. repeat split. }
  apply strict_eq_string_true in Hhigh.
  destruct (MCPF.a2a_checkDelegation mcpf _ _ _) as [d|e] eqn:Hd; [|discriminate].
  destruct (MCPF.allowed d) eqn:Ha.
  2: { intros [= <-]. right. repeat split. }
  destruct (MCPF.policy d) as [p|] eqn:Hp; [|discriminate].
  intros [= <-]. left. repeat split; [exact Hhigh|].
  exists src, tgt, d, p. repeat split; assumption.
Qed.

(** X15. A run is rejected by an error of the resolver, or, for a query of
    severity "high", by an error of the delegation checker or by the
    [TypeError] of an allowed delegation without policy.  A denied
    delegation rejects nothing, and the workflow throws no error of its
    own. *)
Theorem handleCustomerQuery_rejections (mcpf : MCPF.client) (query : Query)
  (e : JS.exn) :
  MCPF.result (handleCustomerQuery mcpf query) = MCPF.Rejected e →
  (∃ n, MCPF.ans_resolve mcpf n = MCPF.Rejected e)
  ∨ (query_severity query = JS.String "high"
     ∧ ((∃ f t a, MCPF.a2a_checkDelegation mcpf f t a = MCPF.Rejected e)
        ∨ (∃ f t a d, MCPF.a2a_checkDelegation mcpf f t a = MCPF.Fulfilled d
                      ∧ MCPF.allowed d = true ∧ MCPF.policy d = None
                      ∧ e = Parts.no_policy))).
Proof.
  unfold handleCustomerQuery. rewrite handleCustomerQueryWith_cases. cbv zeta.
  destruct (MCPF.ans_resolve mcpf "chatbot-l1.support.company.example.agent")
    as [src|e1] eqn:Hsrc; [|intros [= <-]; eauto].
  destruct (MCPF.ans_resolve mcpf "supervisor-ai.management.company.example.agent")
    as [tgt|e1] eqn:Htgt; [|intros [= <-]; eauto].
  rewrite needsEscalation_simulated.
  destruct (JS.strict_eq_string (query_severity query) "high") eqn:Hhigh;
    [|discriminate].
  apply strict_eq_string_true in Hhigh.
  destruct (MCPF.a2a_checkDelegation mcpf _ _ _) as [d|e1] eqn:Hd;
    [|intros [= <-]; right; split; [exact Hhigh|]; left; eauto].
  destruct (MCPF.allowed d) eqn:Ha; [|discriminate].
  destruct (MCPF.policy d) eqn:Hp; [discriminate|].
  intros [= <-]. right. split; [exact Hhigh|]. right. eauto 10.
Qed.

(** X16. The supervisor is resolved before the need for escalation is
    known: a query that needs no escalation still fails when the
    supervisor cannot be resolved, and no first-level answer is
    returned. *)
Theorem supervisor_resolved_first (mcpf : MCPF.client) (query : Query)
  (src : MCPF.AgentIdentity) (e : JS.exn) :
  query_severity query ≠ JS.String "high" →
  MCPF.ans_resolve mcpf "chatbot-l1.support.company.example.agent" = MCPF.Fulfilled src →
  MCPF.ans_resolve mcpf "supervisor-ai.management.company.example.agent"
  = MCPF.Rejected e →
  needsEscalation (simulateL1Response query) query = false
  ∧ handleCustomerQuery mcpf query
    = (MCPF.Rejected e,
       [MCPF.Resolve "chatbot-l1.support.company.example.agent";
        MCPF.Resolve "supervisor-ai.management.company.example.agent"]).
Proof.
  intros Hsev Hsrc Htgt. split.
  - rewrite needsEscalation_simulated.
    destruct (JS.strict_eq_string (query_severity query) "high") eqn:Hhigh;
      [|reflexivity].
    apply strict_eq_string_true in Hhigh. contradiction.
  - unfold handleCustomerQuery. rewrite handleCustomerQueryWith_cases. cbv zeta.
    rewrite Hsrc, Htgt. reflexivity.
Qed.

End EscalationOutcomes.

(** ** The complete workflow *)

Section CompleteWorkflowRuns.

Import CompleteWorkflow.

(** The last line that [main] prints. *)
Abbreviation success_line := (LF +:+ "✅ All components working!") (only parsing).

(** The runs of [main], by the answers of the services. *)
Lemma main_cases (mcpf : client) :
  let agent_name := "fraud-detector.risk.bank.example.agent" in
  let step1 :=
    [Log ("🚀 Complete MCPF Workflow" +:+ LF);
     Log "1️⃣  ANS: Resolving agent names...";
     Call (MCPF.Resolve agent_name)] in
  main mcpf =
  match ans_resolve mcpf agent_name with
  | MCPF.Rejected e => (MCPF.Rejected e, step1)
  | MCPF.Fulfilled agent =>
    let step2 :=
      step1 ++ [Log ("   ✓ " +:+ MCPF.name agent +:+ " → " +:+ MCPF.did agent);
                Log (LF +:+ "2️⃣  DID/VC: Verifying credentials...");
                Call (MCPF.VerifyAgent (MCPF.did agent))] in
    match did_verifyAgent mcpf (MCPF.did agent) with
    | MCPF.Rejected e => (MCPF.Rejected e, step2)
    | MCPF.Fulfilled valid =>
      let step3 :=
        step2 ++ [Log ("   ✓ Credential valid: " +:+ bool_text valid);
                  Log (LF +:+ "3️⃣  Registry: Searching for weather servers...");
                  Search "getCurrentWeather"] in
      match registry_search mcpf "getCurrentWeather" with
      | MCPF.Rejected e => (MCPF.Rejected e, step3)
      | MCPF.Fulfilled servers =>
        let found :=
          step3 ++ [Log ("   ✓ Found " +:+ pretty (length (items servers))
                         +:+ " servers")] in
        match a2a mcpf with
        | None => (MCPF.Fulfilled tt, found ++ [Log success_line])
        | Some check =>
          let step4 :=
            found ++ [Log (LF +:+ "4️⃣  A2A: Checking delegation permission...");
                      Call (MCPF.CheckDelegation (MCPF.did agent)
                              "did:web:analyzer.example" "analyze")] in
          match check (MCPF.did agent) "did:web:analyzer.example" "analyze" with
          | MCPF.Rejected e => (MCPF.Rejected e, step4)
          | MCPF.Fulfilled delegation =>
            (MCPF.Fulfilled tt,
             step4 ++ [Log ("   ✓ Delegation allowed: "
                            +:+ bool_text (MCPF.allowed delegation));
                       Log success_line])
          end
        end
      end
    end
  end.
Proof.
  intros agent_name step1. subst step1. unfold main.
  unfold await_resolve, await_verifyAgent, await_search, await_checkDelegation,
    console_log.
  fold agent_name. cbn [mbind io_bind app].
  destruct (ans_resolve mcpf agent_name) as [agent|e]; [cbn [mbind io_bind app]|reflexivity].
  destruct (did_verifyAgent mcpf (MCPF.did agent)) as [valid|e];
    [cbn [mbind io_bind app]|reflexivity].
  destruct (registry_search mcpf "getCurrentWeather") as [servers|e];
    [cbn [mbind io_bind app]|reflexivity].
  destruct (a2a mcpf) as [check|]; [cbn [mbind io_bind app]|reflexivity].
  destruct (check _ _ _) as [delegation|e]; reflexivity.
Qed.

(** A call among the events of a list given event by event. *)
Ltac in_calls Hin :=
  repeat (apply elem_of_cons in Hin as [Hin | Hin];
          [first [discriminate Hin | injection Hin as ->; reflexivity]|]);
  apply elem_of_nil in Hin; contradiction.

(** An event of a list given event by event is not the one looked for. *)
Ltac not_among Hin :=
  repeat (apply elem_of_cons in Hin as [Hin | Hin];
          [vm_compute in Hin; discriminate Hin|]);
  apply elem_of_nil in Hin; contradiction.

(** X17. The script ends in one of two ways.  It prints the success line
    exactly when [main] completes, which is when the resolver, the
    verifier and the registry answer and, if the client has the [a2a]
    part, the delegation checker answers too, whatever the answers are;
    and it prints an error exactly when one of these calls is rejected. *)
Theorem success_line_iff (mcpf : client) :
  (Log success_line ∈ script mcpf ↔ result (main mcpf) = MCPF.Fulfilled tt)
  ∧ ((∃ e, LogError e ∈ script mcpf) ↔ ∃ e, result (main mcpf) = MCPF.Rejected e)
  ∧ (result (main mcpf) = MCPF.Fulfilled tt
     ↔ ∃ agent valid servers,
         ans_resolve mcpf "fraud-detector.risk.bank.example.agent" = MCPF.Fulfilled agent
         ∧ did_verifyAgent mcpf (MCPF.did agent) = MCPF.Fulfilled valid
         ∧ registry_search mcpf "getCurrentWeather" = MCPF.Fulfilled servers
         ∧ (a2a mcpf = None
            ∨ ∃ check delegation,
                a2a mcpf = Some check
                ∧ check (MCPF.did agent) "did:web:analyzer.example" "analyze"
                  = MCPF.Fulfilled delegation)).
Proof.
  unfold script. rewrite main_cases. cbv zeta.
  destruct (ans_resolve mcpf "fraud-detector.risk.bank.example.agent")
    as [agent|e] eqn:Hagent.
  2: { cbn. split; [|split]; split.
       - intros Hin. not_among Hin.
       - discriminate.
       - eauto.
       - intros _. exists e. rewrite !elem_of_cons. auto 10.
       - discriminate.
       - intros (? & ? & ? & [=] & _). }
  destruct (did_verifyAgent mcpf (MCPF.did agent)) as [valid|e] eqn:Hvalid.
  2: { cbn. split; [|split]; split.
       - intros Hin. not_among Hin.
       - discriminate.
       - eauto.
       - intros _. exists e. rewrite !elem_of_cons. auto 10.
       - discriminate.
       - intros (a & ? & ? & [= <-] & Hv & _). congruence. }
  destruct (registry_search mcpf "getCurrentWeather") as [servers|e] eqn:Hservers.
  2: { cbn. split; [|split]; split.
       - intros Hin. not_among Hin.
       - discriminate.
       - eauto.
       - intros _. exists e. rewrite !elem_of_cons. auto 15.
       - discriminate.
       - intros (a & ? & ? & [= <-] & _ & [=] & _). }
  destruct (a2a mcpf) as [check|] eqn:Ha2a.
  2: { cbn. split; [|split]; split.
       - reflexivity.
       - intros _. rewrite !elem_of_cons. auto 15.
       - intros [e Hin]. not_among Hin.
       - intros [e [=]].
       - intros _. exists agent, valid, servers. auto.
       - reflexivity. }
  destruct (check (MCPF.did agent) "did:web:analyzer.example" "analyze")
    as [delegation|e] eqn:Hcheck.
  - cbn. split; [|split]; split.
    + reflexivity.
    + intros _. rewrite !elem_of_cons. auto 20.
    + intros [e Hin]. not_among Hin.
    + intros [e [=]].
    + intros _. exists agent, valid, servers.
      split; [reflexivity|]. split; [exact Hvalid|]. split; [reflexivity|].
      right. eauto.
    + reflexivity.
  - cbn. split; [|split]; split.
    + intros Hin. not_among Hin.
    + discriminate.
    + eauto.
    + intros _. exists e. rewrite !elem_of_cons. auto 20.
    + discriminate.
    + intros (a & ? & ? & [= <-] & _ & _ & [[=] | (c & d & [= <-] & Hd)]).
      congruence.
Qed.

(** X18. A credential found invalid stops nothing: the registry is
    searched and the delegation is checked all the same, the line
    "Credential valid: false" is printed, and the run ends with the
    success line. *)
Theorem invalid_credential_not_gated (mcpf : client) (agent : MCPF.AgentIdentity)
  (servers : SearchResult)
  (check : string → string → string → MCPF.outcome MCPF.DelegationDecision)
  (delegation : MCPF.DelegationDecision) :
  ans_resolve mcpf "fraud-detector.risk.bank.example.agent" = MCPF.Fulfilled agent →
  did_verifyAgent mcpf (MCPF.did agent) = MCPF.Fulfilled false →
  registry_search mcpf "getCurrentWeather" = MCPF.Fulfilled servers →
  a2a mcpf = Some check →
  check (MCPF.did agent) "did:web:analyzer.example" "analyze" = MCPF.Fulfilled delegation →
  calls (script mcpf)
  = [Call (MCPF.Resolve "fraud-detector.risk.bank.example.agent");
     Call (MCPF.VerifyAgent (MCPF.did agent));
     Search "getCurrentWeather";
     Call (MCPF.CheckDelegation (MCPF.did agent) "did:web:analyzer.example" "analyze")]
  ∧ "   ✓ Credential valid: false" ∈ lines (script mcpf)
  ∧ last (lines (script mcpf)) = Some success_line.
Proof.
  intros Hagent Hvalid Hservers Ha2a Hcheck.
  unfold script. rewrite main_cases. cbv zeta.
  rewrite Hagent, Hvalid, Hservers, Ha2a, Hcheck. cbn.
  split; [reflexivity|]. split; [|reflexivity].
  rewrite !elem_of_cons. auto 10.
Qed.

(** X19. The services are called at most once each and in the order
    resolver, verifier, registry, delegation checker, and a rejected call
    is the last one: the calls of a run are the resolution alone when it
    is rejected; the resolution and the verification when the
    verification is rejected; these and the search when the search is
    rejected or the client has no [a2a] part; and all four when it has
    one.  A client without the [a2a] part is never asked for a
    delegation. *)
Theorem calls_in_order (mcpf : client) :
  (∀ agent,
     ans_resolve mcpf "fraud-detector.risk.bank.example.agent" = MCPF.Fulfilled agent →
     calls (script mcpf)
     `prefix_of`
     [Call (MCPF.Resolve "fraud-detector.risk.bank.example.agent");
      Call (MCPF.VerifyAgent (MCPF.did agent));
      Search "getCurrentWeather";
      Call (MCPF.CheckDelegation (MCPF.did agent) "did:web:analyzer.example" "analyze")])
  ∧ (∀ e,
       ans_resolve mcpf "fraud-detector.risk.bank.example.agent" = MCPF.Rejected e →
       calls (script mcpf)
       = [Call (MCPF.Resolve "fraud-detector.risk.bank.example.agent")])
  ∧ (a2a mcpf = None →
     ∀ c, Call c ∈ script mcpf → MCPF.is_CheckDelegation c = false)
  ∧ (∀ agent e,
       ans_resolve mcpf "fraud-detector.risk.bank.example.agent" = MCPF.Fulfilled agent →
       did_verifyAgent mcpf (MCPF.did agent) = MCPF.Rejected e →
       calls (script mcpf)
       = [Call (MCPF.Resolve "fraud-detector.risk.bank.example.agent");
          Call (MCPF.VerifyAgent (MCPF.did agent))])
  ∧ (∀ agent valid,
       ans_resolve mcpf "fraud-detector.risk.bank.example.agent" = MCPF.Fulfilled agent →
       did_verifyAgent mcpf (MCPF.did agent) = MCPF.Fulfilled valid →
       (a2a mcpf = None
        ∨ ∃ e, registry_search mcpf "getCurrentWeather" = MCPF.Rejected e) →
       calls (script mcpf)
       = [Call (MCPF.Resolve "fraud-detector.risk.bank.example.agent");
          Call (MCPF.VerifyAgent (MCPF.did agent));
          Search "getCurrentWeather"])
  ∧ (∀ agent valid servers check,
       ans_resolve mcpf "fraud-detector.risk.bank.example.agent" = MCPF.Fulfilled agent →
       did_verifyAgent mcpf (MCPF.did agent) = MCPF.Fulfilled valid →
       registry_search mcpf "getCurrentWeather" = MCPF.Fulfilled servers →
       a2a mcpf = Some check →
       calls (script mcpf)
       = [Call (MCPF.Resolve "fraud-detector.risk.bank.example.agent");
          Call (MCPF.VerifyAgent (MCPF.did agent));
          Search "getCurrentWeather";
          Call (MCPF.CheckDelegation (MCPF.did agent) "did:web:analyzer.example"
                  "analyze")]).
Proof.
  unfold script. rewrite main_cases. cbv zeta.
  split; [|split; [|split; [|split; [|split]]]].
  - intros agent ->.
    destruct (did_verifyAgent mcpf (MCPF.did agent)) as [valid|e];
      [|cbn; eexists; reflexivity].
    destruct (registry_search mcpf "getCurrentWeather") as [servers|e];
      [|cbn; eexists; reflexivity].
    destruct (a2a mcpf) as [check|]; [|cbn; eexists; reflexivity].
    destruct (check _ _ _) as [delegation|e]; cbn; eexists; reflexivity.
  - intros e ->. reflexivity.
  - intros ->.
    destruct (ans_resolve mcpf "fraud-detector.risk.bank.example.agent")
      as [agent|e]; [|cbn; intros c Hin; in_calls Hin].
    destruct (did_verifyAgent mcpf (MCPF.did agent)) as [valid|e];
      [|cbn; intros c Hin; in_calls Hin].
    destruct (registry_search mcpf "getCurrentWeather") as [servers|e];
      cbn; intros c Hin; in_calls Hin.
  - intros agent e -> ->. reflexivity.
  - intros agent valid -> -> [-> | [e ->]]; [|reflexivity].
    destruct (registry_search mcpf "getCurrentWeather"); reflexivity.
  - intros agent valid servers check -> -> -> ->.
    destruct (check _ _ _); reflexivity.
Qed.

End CompleteWorkflowRuns.

(** ** The further properties at sample inputs *)

Section MoreSampleRuns.

Import FraudDetection.
#[local] Existing Instance Sample.no_numeric_strings.

Lemma score_monotone_in_amount_witness :
  JS.le (JS.lit 9000) (JS.lit 20000) = true
  ∧ JS.le (calculateRiskScore (Parts.with_amount Sample.velocity_only (JS.lit 9000)))
      (calculateRiskScore (Parts.with_amount Sample.velocity_only (JS.lit 20000)))
    = true.
Proof.
  split; [reflexivity|].
  apply (score_monotone_in_amount Sample.velocity_only (JS.lit 9000) (JS.lit 20000)).
  reflexivity.
Defined.

Lemma other_metadata_ignored_witness :
  "channel" ≠ "recentTxCount"
  ∧ calculateRiskScore
      (Parts.with_metadata Sample.all_triggered
         (<["channel":=JS.String "web"]> (tx_metadata Sample.all_triggered)))
    = calculateRiskScore Sample.all_triggered.
Proof.
  split; [discriminate|].
  apply (other_metadata_ignored Sample.all_triggered "channel" (JS.String "web")
           (JS.lit 0)); discriminate.
Defined.

Lemma falsy_count_is_no_velocity_witness :
  Parts.falsy JS.Null = true
  ∧ Reference.high_velocity
      (Parts.with_metadata Sample.all_triggered
         (<["recentTxCount":=JS.Null]> (tx_metadata Sample.all_triggered)))
    = false.
Proof.
  split; [reflexivity|].
  apply (falsy_count_is_no_velocity Sample.all_triggered JS.Null (JS.lit 0)).
  reflexivity.
Defined.

Lemma detectFraud_rejections_witness :
  MCPF.result (detectFraud (Sample.mcpf Sample.analyzer_invalid Sample.allow)
                 "2025-12-31T10:00:00.000Z" Sample.all_triggered)
  = MCPF.Rejected (JS.Error "Agent credential verification failed")
  ∧ ((∃ n, MCPF.ans_resolve (Sample.mcpf Sample.analyzer_invalid Sample.allow) n
           = MCPF.Rejected (JS.Error "Agent credential verification failed"))
     ∨ (∃ d, MCPF.did_verifyAgent (Sample.mcpf Sample.analyzer_invalid Sample.allow) d
             = MCPF.Rejected (JS.Error "Agent credential verification failed"))
     ∨ (∃ f t a,
          MCPF.a2a_checkDelegation (Sample.mcpf Sample.analyzer_invalid Sample.allow) f t a
          = MCPF.Rejected (JS.Error "Agent credential verification failed"))
     ∨ JS.Error "Agent credential verification failed"
       = JS.Error "Agent credential verification failed"
     ∨ (∃ f t a d,
          MCPF.a2a_checkDelegation (Sample.mcpf Sample.analyzer_invalid Sample.allow) f t a
          = MCPF.Fulfilled d
          ∧ MCPF.allowed d = false
          ∧ JS.Error "Agent credential verification failed"
            = JS.Error ("Delegation denied: " +:+ MCPF.reason_text d))
     ∨ (∃ f t a d,
          MCPF.a2a_checkDelegation (Sample.mcpf Sample.analyzer_invalid Sample.allow) f t a
          = MCPF.Fulfilled d
          ∧ MCPF.allowed d = true ∧ MCPF.policy d = None
          ∧ JS.Error "Agent credential verification failed" = Parts.no_policy)).
Proof.
  split; [reflexivity|].
  apply (detectFraud_rejections (Sample.mcpf Sample.analyzer_invalid Sample.allow)
           "2025-12-31T10:00:00.000Z" Sample.all_triggered).
  reflexivity.
Defined.

Lemma resolution_failure_stops_witness :
  MCPF.ans_resolve (MoreSamples.knows_only Sample.detector)
    "risk-analyzer.analytics.bank.example.agent" = MCPF.Rejected MoreSamples.not_found
  ∧ MCPF.result (detectFraud (MoreSamples.knows_only Sample.detector)
                   "2025-12-31T10:00:00.000Z" Sample.all_triggered)
    = MCPF.Rejected MoreSamples.not_found.
Proof.
  split; [reflexivity|].
  apply (resolution_failure_stops (MoreSamples.knows_only Sample.detector)
           "2025-12-31T10:00:00.000Z" Sample.all_triggered MoreSamples.not_found).
  right. exists Sample.detector. split; reflexivity.
Defined.

Lemma verification_rejected_witness :
  MCPF.did_verifyAgent MoreSamples.verifier_down (MCPF.did Sample.detector)
  = MCPF.Fulfilled false
  ∧ MCPF.did_verifyAgent MoreSamples.verifier_down (MCPF.did Sample.analyzer)
    = MCPF.Rejected MoreSamples.timed_out
  ∧ detectFraud MoreSamples.verifier_down "2025-12-31T10:00:00.000Z" Sample.all_triggered
    = (MCPF.Rejected MoreSamples.timed_out,
       [MCPF.Resolve "fraud-detector.risk.bank.example.agent";
        MCPF.Resolve "risk-analyzer.analytics.bank.example.agent";
        MCPF.VerifyAgent (MCPF.did Sample.detector);
        MCPF.VerifyAgent (MCPF.did Sample.analyzer)]).
Proof.
  split; [reflexivity|]. split; [reflexivity|].
  apply (proj2 (verification_rejected MoreSamples.verifier_down
                  "2025-12-31T10:00:00.000Z" Sample.all_triggered
                  Sample.detector Sample.analyzer MoreSamples.timed_out
                  eq_refl eq_refl) false);
    reflexivity.
Defined.

Lemma allowed_without_policy_witness :
  MCPF.policy MoreSamples.allow_without_policy = None
  ∧ detectFraud (Sample.mcpf (λ _, true) MoreSamples.allow_without_policy)
      "2025-12-31T10:00:00.000Z" Sample.all_triggered
    = (MCPF.Rejected Parts.no_policy,
       [MCPF.Resolve "fraud-detector.risk.bank.example.agent";
        MCPF.Resolve "risk-analyzer.analytics.bank.example.agent";
        MCPF.VerifyAgent (MCPF.did Sample.detector);
        MCPF.VerifyAgent (MCPF.did Sample.analyzer);
        MCPF.CheckDelegation (MCPF.did Sample.detector) (MCPF.did Sample.analyzer)
          "analyze-transaction"]).
Proof.
  split; [reflexivity|].
  apply (allowed_without_policy
           (Sample.mcpf (λ _, true) MoreSamples.allow_without_policy)
           "2025-12-31T10:00:00.000Z" Sample.all_triggered
           Sample.detector Sample.analyzer MoreSamples.allow_without_policy);
    reflexivity.
Defined.

Lemma denial_without_reason_witness :
  MCPF.reason MoreSamples.deny_without_reason = None
  ∧ MCPF.result (detectFraud (Sample.mcpf (λ _, true) MoreSamples.deny_without_reason)
                   "2025-12-31T10:00:00.000Z" Sample.all_triggered)
    = MCPF.Rejected (JS.Error "Delegation denied: undefined").
Proof.
  split; [reflexivity|].
  apply (denial_without_reason
           (Sample.mcpf (λ _, true) MoreSamples.deny_without_reason)
           "2025-12-31T10:00:00.000Z" Sample.all_triggered
           Sample.detector Sample.analyzer MoreSamples.deny_without_reason);
    reflexivity.
Defined.

Lemma handleCustomerQuery_result_witness :
  MCPF.result (Escalation.handleCustomerQuery (Sample.mcpf (λ _, true) Sample.allow)
                 (Sample.query (JS.String "high")))
  = MCPF.Fulfilled
      {| Escalation.status := "escalated";
         Escalation.response :=
           Escalation.simulateSupervisorResponse (Sample.query (JS.String "high"));
         Escalation.policyId := Some "pol_xyz" |}
  ∧ Escalation.query_severity (Sample.query (JS.String "high")) = JS.String "high".
Proof.
  split; [reflexivity|].
  destruct (handleCustomerQuery_result (Sample.mcpf (λ _, true) Sample.allow)
              (Sample.query (JS.String "high"))
              {| Escalation.status := "escalated";
                 Escalation.response :=
                   Escalation.simulateSupervisorResponse (Sample.query (JS.String "high"));
                 Escalation.policyId := Some "pol_xyz" |} eq_refl)
    as [(_ & _ & Hhigh & _) | (Hstatus & _)].
  - exact Hhigh.
  - discriminate Hstatus.
Defined.

Lemma handleCustomerQuery_rejections_witness :
  MCPF.result (Escalation.handleCustomerQuery (MoreSamples.knows_only Sample.chatbot)
                 (Sample.query (JS.String "low")))
  = MCPF.Rejected MoreSamples.not_found
  ∧ ((∃ n, MCPF.ans_resolve (MoreSamples.knows_only Sample.chatbot) n
           = MCPF.Rejected MoreSamples.not_found)
     ∨ (Escalation.query_severity (Sample.query (JS.String "low")) = JS.String "high"
        ∧ ((∃ f t a,
              MCPF.a2a_checkDelegation (MoreSamples.knows_only Sample.chatbot) f t a
              = MCPF.Rejected MoreSamples.not_found)
           ∨ (∃ f t a d,
                MCPF.a2a_checkDelegation (MoreSamples.knows_only Sample.chatbot) f t a
                = MCPF.Fulfilled d
                ∧ MCPF.allowed d = true ∧ MCPF.policy d = None
                ∧ MoreSamples.not_found = Parts.no_policy)))).
Proof.
  split; [reflexivity|].
  apply (handleCustomerQuery_rejections (MoreSamples.knows_only Sample.chatbot)
           (Sample.query (JS.String "low")) MoreSamples.not_found).
  reflexivity.
Defined.

Lemma supervisor_resolved_first_witness :
  Escalation.query_severity (Sample.query (JS.String "low")) ≠ JS.String "high"
  ∧ Escalation.handleCustomerQuery (MoreSamples.knows_only Sample.chatbot)
      (Sample.query (JS.String "low"))
    = (MCPF.Rejected MoreSamples.not_found,
       [MCPF.Resolve "chatbot-l1.support.company.example.agent";
        MCPF.Resolve "supervisor-ai.management.company.example.agent"]).
Proof.
  assert (Hlow : Escalation.query_severity (Sample.query (JS.String "low"))
                 ≠ JS.String "high") by discriminate.
  split; [exact Hlow|].
  exact (proj2 (supervisor_resolved_first (MoreSamples.knows_only Sample.chatbot)
                  (Sample.query (JS.String "low")) Sample.chatbot
                  MoreSamples.not_found Hlow eq_refl eq_refl)).
Defined.

Lemma invalid_credential_not_gated_witness :
  CompleteWorkflow.did_verifyAgent
    (MoreSamples.all_components false
       (Some (λ _ _ _, MCPF.Fulfilled (Sample.deny "policy expired"))))
    (MCPF.did Sample.detector) = MCPF.Fulfilled false
  ∧ last (CompleteWorkflow.lines
            (CompleteWorkflow.script
               (MoreSamples.all_components false
                  (Some (λ _ _ _, MCPF.Fulfilled (Sample.deny "policy expired"))))))
    = Some (CompleteWorkflow.LF +:+ "✅ All components working!").
Proof.
  split; [reflexivity|].
  apply (invalid_credential_not_gated
           (MoreSamples.all_components false
              (Some (λ _ _ _, MCPF.Fulfilled (Sample.deny "policy expired"))))
           Sample.detector
           {| CompleteWorkflow.items := ["weather-a"; "weather-b"] |}
           (λ _ _ _, MCPF.Fulfilled (Sample.deny "policy expired"))
           (Sample.deny "policy expired"));
    reflexivity.
Defined.

(** The lines of a run with an invalid credential and a denied
    delegation. *)
Lemma complete_workflow_lines :
  CompleteWorkflow.lines
    (CompleteWorkflow.script
       (MoreSamples.all_components false
          (Some (λ _ _ _, MCPF.Fulfilled (Sample.deny "policy expired")))))
  = ["🚀 Complete MCPF Workflow" +:+ CompleteWorkflow.LF;
     "1️⃣  ANS: Resolving agent names...";
     "   ✓ fraud-detector.risk.bank.example.agent → did:web:bank.example:fraud-detector";
     CompleteWorkflow.LF +:+ "2️⃣  DID/VC: Verifying credentials...";
     "   ✓ Credential valid: false";
     CompleteWorkflow.LF +:+ "3️⃣  Registry: Searching for weather servers...";
     "   ✓ Found 2 servers";
     CompleteWorkflow.LF +:+ "4️⃣  A2A: Checking delegation permission...";
     "   ✓ Delegation allowed: false";
     CompleteWorkflow.LF +:+ "✅ All components working!"].
Proof. vm_compute. reflexivity. Qed.

End MoreSampleRuns.
